(** * Triage classifier of [app.py]: [classify_patient_aiims_atp]

    The classifier receives one Python dict [data] and returns the pair
    [(triage_level, reasons)].  It reads the dict with [data[k]] only, keeps
    two local variables ([triage_level], a string, and [reasons], a list of
    strings) and leaves through one of seven [return] statements.

    The embedding keeps these three ingredients apart:
    - Python values and the operators the function applies to them
      (truth value, ordering against a numeric literal, [!= 0], [/], [in]);
    - a small program monad whose operations are exactly what the function
      body does: a dict read, reads and writes of the two locals, raising;
    - an interpreter that runs a program against a store and records every
      operation performed, so that statements about evaluation order are
      statements about the recorded log. *)

From Stdlib Require Import ZArith QArith Lqa Sorted.
From stdpp Require Import gmap strings list.

Local Open Scope string_scope.
Local Open Scope list_scope.

(** ** Python values

    Numbers: a Python [int] is a [Z].  A Python [float] is represented by the
    rational number it denotes (no NaN, no infinity).  Python compares an
    [int] with a [float] by exact value, so every comparison below is exact;
    the single arithmetic operation of the function, [hr / sbp], is the exact
    quotient, while Python rounds it to binary64.  Rounding is monotone and
    keeps [1.0] fixed, so the test [shock_index > 1.0] can differ from the
    exact one only for a quotient in the interval (1, 1 + 2^-53], which no
    pair of integers below 2^53 and no pair of binary64 numbers produces.
    An [int] has no bound, a [float] has: the division raises OverflowError
    when an integer operand, or the quotient of two integers, is too large
    for binary64 ([py_truediv]).  The quotient of two floats never raises
    it: beyond the range it is an infinity or zero, which compares with
    [1.0] as the exact quotient does. *)

Inductive pyval : Type :=
| VNone
| VBool (b : bool)
| VInt (z : Z)
| VFloat (q : Q)
| VStr (s : string).

Inductive exn : Type :=
| KeyError (k : string)
| TypeError
| ZeroDivisionError
| OverflowError.

Inductive result (A : Type) : Type :=
| Ok (a : A)
| Err (e : exn).
Arguments Ok {A} a.
Arguments Err {A} e.

(** [bool] is a subclass of [int] in Python: [True] counts as 1. *)
Definition as_number (v : pyval) : option Q :=
  match v with
  | VBool b => Some (if b then 1%Q else 0%Q)
  | VInt z => Some (inject_Z z)
  | VFloat q => Some q
  | VNone | VStr _ => None
  end.

(** Truth value of an object, as [if] and [or] test it. *)
Definition truthy (v : pyval) : bool :=
  match v with
  | VNone => false
  | VBool b => b
  | VInt z => negb (z =? 0)%Z
  | VFloat q => negb (Qeq_bool q 0)
  | VStr s => match s with EmptyString => false | String _ _ => true end
  end.

Definition Qlt_bool (x y : Q) : bool := negb (Qle_bool y x).

(** [v < c], [v > c], [v <= c], [v >= c] against a numeric literal [c]:
    a number is compared by value, anything else raises [TypeError]. *)
Definition py_compare (op : Q -> Q -> bool) (v : pyval) (c : Q) : result bool :=
  match as_number v with
  | Some q => Ok (op q c)
  | None => Err TypeError
  end.

Definition py_lt := py_compare Qlt_bool.
Definition py_gt := py_compare (fun q c => Qlt_bool c q).
Definition py_le := py_compare Qle_bool.
Definition py_ge := py_compare (fun q c => Qle_bool c q).

(** [v != 0]: defined on every object; only a number equal to zero is not
    different from [0]. *)
Definition py_ne0 (v : pyval) : bool :=
  match as_number v with
  | Some q => negb (Qeq_bool q 0)
  | None => true
  end.

(** The integer operands of arithmetic: an [int], or a [bool] as 0 or 1. *)
Definition as_int (v : pyval) : option Z :=
  match v with
  | VBool b => Some (Z.b2z b)
  | VInt z => Some z
  | VNone | VFloat _ | VStr _ => None
  end.

(** The least positive integer that has no binary64 value: the largest
    float is 2^1024 - 2^971, and an integer half way to 2^1024 or beyond
    rounds to 2^1024, which is out of range. *)
Definition float_overflow : Z := 2 ^ 1024 - 2 ^ 970.

(** [float(z)], the conversion applied to an integer operand of float
    arithmetic: "int too large to convert to float". *)
Definition float_of_int (z : Z) : result Q :=
  if (Z.abs z <? float_overflow)%Z then Ok (inject_Z z) else Err OverflowError.

(** An operand of float arithmetic. *)
Definition as_float (v : pyval) : option (result Q) :=
  match v with
  | VFloat q => Some (Ok q)
  | _ => option_map float_of_int (as_int v)
  end.

(** [x / y] on two integers: the quotient as a float, "integer division
    result too large for a float" when the quotient has no binary64 value. *)
Definition int_truediv (x y : Z) : result pyval :=
  if (y =? 0)%Z then Err ZeroDivisionError
  else if (float_overflow * Z.abs y <=? Z.abs x)%Z then Err OverflowError
  else Ok (VFloat (inject_Z x / inject_Z y)).

(** [x / y] on two floats. *)
Definition float_truediv (x y : Q) : result pyval :=
  if Qeq_bool y 0 then Err ZeroDivisionError else Ok (VFloat (x / y)).

(** [a / b], true division: integer division when both operands are
    integers; otherwise both are converted to float, the left one first,
    before the divisor is tested; TypeError when one is not a number. *)
Definition py_truediv (a b : pyval) : result pyval :=
  match as_int a, as_int b with
  | Some x, Some y => int_truediv x y
  | _, _ =>
      match as_float a, as_float b with
      | Some (Ok x), Some (Ok y) => float_truediv x y
      | Some (Err e), Some _ => Err e
      | Some (Ok _), Some (Err e) => Err e
      | _, _ => Err TypeError
      end
  end.

(** [v in ['V', 'P', 'U']]: membership by [==], [False] for a non-string. *)
Definition py_in_VPU (v : pyval) : bool :=
  match v with
  | VStr s => String.eqb s "V" || String.eqb s "P" || String.eqb s "U"
  | _ => false
  end.

(** ** Programs

    One constructor per kind of operation in the body of
    [classify_patient_aiims_atp].  There is no constructor writing to
    [data]: the function contains no such statement. *)

Inductive prog (A : Type) : Type :=
| Ret (a : A)
| Throw (e : exn)
| GetItem (k : string) (cont : pyval -> prog A)     (* data[k] *)
| GetLevel (cont : string -> prog A)                (* triage_level *)
| SetLevel (l : string) (next : prog A)             (* triage_level = l *)
| GetReasons (cont : list string -> prog A)         (* reasons *)
| NewReasons (next : prog A)                        (* reasons = [] *)
| Append (r : string) (next : prog A).              (* reasons.append(r) *)
Arguments Ret {A} a.
Arguments Throw {A} e.
Arguments GetItem {A} k cont.
Arguments GetLevel {A} cont.
Arguments SetLevel {A} l next.
Arguments GetReasons {A} cont.
Arguments NewReasons {A} next.
Arguments Append {A} r next.

Fixpoint bind {A B : Type} (m : prog A) (f : A -> prog B) : prog B :=
  match m with
  | Ret a => f a
  | Throw e => Throw e
  | GetItem k cont => GetItem k (fun v => bind (cont v) f)
  | GetLevel cont => GetLevel (fun l => bind (cont l) f)
  | SetLevel l next => SetLevel l (bind next f)
  | GetReasons cont => GetReasons (fun rs => bind (cont rs) f)
  | NewReasons next => NewReasons (bind next f)
  | Append r next => Append r (bind next f)
  end.

Declare Scope prog_scope.
Delimit Scope prog_scope with prog.
Bind Scope prog_scope with prog.
Notation "x <- m ; k" := (bind m (fun x => k))
  (at level 100, m at next level, right associativity) : prog_scope.
Notation "m ;; k" := (bind m (fun _ => k))
  (at level 100, right associativity) : prog_scope.
Local Open Scope prog_scope.

Definition lift {A : Type} (r : result A) : prog A :=
  match r with
  | Ok a => Ret a
  | Err e => Throw e
  end.

Definition getitem (k : string) : prog pyval := GetItem k Ret.
Definition get_level : prog string := GetLevel Ret.
Definition set_level (l : string) : prog unit := SetLevel l (Ret tt).
Definition get_reasons : prog (list string) := GetReasons Ret.
Definition new_reasons : prog unit := NewReasons (Ret tt).
Definition append (r : string) : prog unit := Append r (Ret tt).

(** *** Conditions

    [a or b] and [a and b] in the test of an [if]: the right operand is
    evaluated only when the left one does not decide. *)
Definition por (a b : prog bool) : prog bool :=
  x <- a; if x then Ret true else b.
Definition pand (a b : prog bool) : prog bool :=
  x <- a; if x then b else Ret false.
Infix "orelse" := por (at level 72, right associativity) : prog_scope.
Infix "andalso" := pand (at level 71, right associativity) : prog_scope.

(** [data[k]] used as a truth value, and [data[k]] compared with a literal. *)
Definition data_flag (k : string) : prog bool :=
  v <- getitem k; Ret (truthy v).
Definition data_lt (k : string) (c : Q) : prog bool :=
  v <- getitem k; lift (py_lt v c).
Definition data_gt (k : string) (c : Q) : prog bool :=
  v <- getitem k; lift (py_gt v c).
Definition data_le (k : string) (c : Q) : prog bool :=
  v <- getitem k; lift (py_le v c).
Definition data_ge (k : string) (c : Q) : prog bool :=
  v <- getitem k; lift (py_ge v c).

(** ** The rule cascade of [classify_patient_aiims_atp]

    Each condition is the test of one [if] of the source, operand by operand
    and in the source's order. *)

(* line 14 *)
Definition airway_cond : prog bool :=
  data_flag "stridor" orelse data_flag "angioedema" orelse
  data_flag "active_seizures".

(* lines 19-20 *)
Definition breathing_cond : prog bool :=
  data_flag "talking_incomplete_sentences" orelse data_flag "audible_wheeze" orelse
  data_gt "rr" 22 orelse data_lt "rr" 10 orelse data_lt "spo2" 90.

(* line 26: data['hr'] / data['sbp'] if data['sbp'] != 0 else 0 *)
Definition shock_index_expr : prog pyval :=
  sbp <- getitem "sbp";
  if py_ne0 sbp
  then (hr <- getitem "hr"; sbp' <- getitem "sbp"; lift (py_truediv hr sbp'))
  else Ret (VInt 0).

(* lines 26-29: the assignment of [shock_index] and the test that uses it *)
Definition circulation_cond : prog bool :=
  shock_index <- shock_index_expr;
  (data_lt "hr" 50 orelse data_gt "hr" 120 orelse
   data_lt "sbp" 90 orelse data_gt "sbp" 220 orelse
   data_lt "dbp" 60 orelse data_gt "dbp" 110 orelse
   lift (py_gt shock_index 1) orelse data_flag "active_bleeding").

(* line 34 *)
Definition consciousness_cond : prog bool :=
  avpu <- getitem "avpu"; Ret (py_in_VPU avpu).

(* lines 40-45 *)
Definition time_sensitive_cond : prog bool :=
  data_flag "acute_chest_pain_lt_24hr" orelse data_flag "suspected_stroke_lt_24hr" orelse
  data_flag "acute_sob_lt_12hr" orelse data_gt "pain_score" 7 orelse
  data_flag "sudden_severe_headache" orelse data_flag "acute_limb_ischemia" orelse
  data_flag "history_syncope" orelse data_flag "abdominal_pain_sudden_onset" orelse
  data_flag "fever_immunocompromised" orelse data_flag "acute_urinary_retention" orelse
  data_gt "temp" 40 orelse data_lt "temp" 35.

(* lines 51-52 *)
Definition other_urgent_cond : prog bool :=
  data_flag "agitated_violent" orelse data_flag "suspected_poisoning_bite" orelse
  data_flag "pregnant_3rd_trimester_abdominal_bleed".

(* lines 59-63 *)
Definition yellow_vitals_cond : prog bool :=
  (data_ge "rr" 20 andalso data_le "rr" 22) orelse
  (data_ge "hr" 100 andalso data_le "hr" 120) orelse
  (data_ge "sbp" 180 andalso data_le "sbp" 220) orelse
  (data_ge "dbp" 100 andalso data_le "dbp" 110) orelse
  (data_ge "temp" 38 andalso data_le "temp" 40).

(* lines 69-73 *)
Definition yellow_symptoms_cond : prog bool :=
  (data_ge "pain_score" 4 andalso data_le "pain_score" 7) orelse
  data_flag "vomiting_diarrhea_persistent" orelse data_flag "minor_trauma_with_deformity" orelse
  data_flag "fever_no_red_flags" orelse data_flag "urinary_symptoms_moderate" orelse
  data_flag "older_adult_minor_fall" orelse data_flag "pediatric_fever_irritable" orelse
  data_flag "chronic_condition_exacerbation".

Definition airway_reason : string :=
  "Airway compromise (Stridor/Angioedema/Active Seizures)".
Definition breathing_reason : string :=
  "Breathing compromise (Abnormal RR/SpO2, Dyspnea, Wheeze)".
Definition circulation_reason : string :=
  "Circulation compromise (Abnormal HR/BP, Shock Index >1, Active Bleeding)".
Definition consciousness_reason : string :=
  "Altered sensorium (AVPU < Alert)".
Definition time_sensitive_reason : string :=
  "Time-sensitive/Urgent condition requiring immediate attention (including extreme temp).".
Definition other_urgent_reason : string :=
  "Other highly urgent condition (Agitation/Poisoning/Pregnancy complication).".
Definition yellow_vitals_reason : string :=
  "Vital signs slightly abnormal, warranting urgent assessment (including fever).".
Definition yellow_symptoms_reason : string :=
  "Semi-urgent condition requiring evaluation/admission.".
Definition default_reason : string :=
  "No specific red or yellow criteria met. Appears non-urgent.".
Definition minor_reason : string :=
  "Minor condition with stable vitals.".

(** *** Statements

    The function returns the pair [(triage_level, reasons)].  A statement
    yields [Some v] when it executed [return] with value [v], and [None]
    when control falls through to the next statement. *)

Definition verdict : Type := string * list string.
Definition stmt : Type := prog (option verdict).

Definition pass : stmt := Ret None.

(* return triage_level, reasons *)
Definition return_pair : prog verdict :=
  l <- get_level; rs <- get_reasons; Ret (l, rs).
Definition return_stmt : stmt :=
  v <- return_pair; Ret (Some v).

Definition seq (s : stmt) (k : prog verdict) : prog verdict :=
  r <- s; match r with Some v => Ret v | None => k end.
Notation "s ;;; k" := (seq s k)
  (at level 100, right associativity) : prog_scope.

(* triage_level == l *)
Definition level_is (l : string) : prog bool :=
  x <- get_level; Ret (String.eqb x l).
(* not reasons *)
Definition no_reasons : prog bool :=
  rs <- get_reasons; Ret (match rs with [] => true | _ :: _ => false end).

(* The shape shared by the six RED blocks (lines 14-17, 19-23, 27-32, 34-37,
   40-48, 51-55): append the reason, set RED, return. *)
Definition red_tier (cond : prog bool) (reason : string) : stmt :=
  c <- cond;
  if c then (append reason;; set_level "RED";; return_stmt) else pass.

(* lines 59-66 *)
Definition yellow_vitals_tier : stmt :=
  c <- yellow_vitals_cond;
  if c then (append yellow_vitals_reason;; set_level "YELLOW";; pass) else pass.

(* lines 69-78 *)
Definition yellow_symptoms_tier : stmt :=
  c <- yellow_symptoms_cond;
  if c then
    (green <- level_is "GREEN";
     if green then (append yellow_symptoms_reason;; set_level "YELLOW";; pass)
     else (c' <- (level_is "YELLOW" andalso no_reasons);
           if c' then (append yellow_symptoms_reason;; pass) else pass))
  else pass.

(* lines 82-86 *)
Definition default_tier : stmt :=
  c <- no_reasons;
  if c then (append default_reason;; set_level "GREEN";; pass)
  else (c' <- (level_is "GREEN" andalso no_reasons);
        if c' then (append minor_reason;; pass) else pass).

Definition airway_tier : stmt := red_tier airway_cond airway_reason.
Definition breathing_tier : stmt := red_tier breathing_cond breathing_reason.
Definition circulation_tier : stmt := red_tier circulation_cond circulation_reason.
Definition consciousness_tier : stmt := red_tier consciousness_cond consciousness_reason.
Definition time_sensitive_tier : stmt := red_tier time_sensitive_cond time_sensitive_reason.
Definition other_urgent_tier : stmt := red_tier other_urgent_cond other_urgent_reason.

(* lines 8-89 *)
Definition classify_patient_aiims_atp : prog verdict :=
  new_reasons;;
  set_level "GREEN";;
  airway_tier ;;;
  breathing_tier ;;;
  circulation_tier ;;;
  consciousness_tier ;;;
  time_sensitive_tier ;;;
  other_urgent_tier ;;;
  yellow_vitals_tier ;;;
  yellow_symptoms_tier ;;;
  default_tier ;;;
  return_pair.

(** ** Running a program

    The store holds the dict the caller passed and the two locals.  [run]
    returns the log of operations performed (dict reads and writes of the
    locals, in order), the final store and the value or exception. *)

Record store : Type := mkStore {
  data : gmap string pyval;
  triage_level : string;
  reasons : list string
}.

Inductive event : Type :=
| EvGetItem (k : string)
| EvSetLevel (l : string)
| EvNewReasons
| EvAppend (r : string).

Definition outcome (A : Type) : Type := list event * store * result A.

Definition logged {A : Type} (e : event) (o : outcome A) : outcome A :=
  let '(lg, st, r) := o in (e :: lg, st, r).

Fixpoint run {A : Type} (p : prog A) (st : store) : outcome A :=
  match p with
  | Ret a => ([], st, Ok a)
  | Throw e => ([], st, Err e)
  | GetItem k cont =>
      match data st !! k with
      | Some v => logged (EvGetItem k) (run (cont v) st)
      | None => ([EvGetItem k], st, Err (KeyError k))
      end
  | GetLevel cont => run (cont (triage_level st)) st
  | SetLevel l next =>
      logged (EvSetLevel l) (run next (mkStore (data st) l (reasons st)))
  | GetReasons cont => run (cont (reasons st)) st
  | NewReasons next =>
      logged EvNewReasons (run next (mkStore (data st) (triage_level st) []))
  | Append r next =>
      logged (EvAppend r)
        (run next (mkStore (data st) (triage_level st) (reasons st ++ [r])))
  end.

Definition log_of {A : Type} (o : outcome A) : list event := o.1.1.
Definition store_of {A : Type} (o : outcome A) : store := o.1.2.
Definition result_of {A : Type} (o : outcome A) : result A := o.2.

(** A call [classify_patient_aiims_atp(d)]: the locals do not exist before
    the first two assignments; the store starts with placeholders for them. *)
Definition entry (d : gmap string pyval) : store := mkStore d EmptyString [].

Definition call (d : gmap string pyval) : outcome verdict :=
  run classify_patient_aiims_atp (entry d).

Definition classify (d : gmap string pyval) : result verdict :=
  result_of (call d).

(** The value of a condition on the dict [d]. *)
Definition eval {A : Type} (c : prog A) (d : gmap string pyval) : result A :=
  result_of (run c (entry d)).

(** ** Snapshots *)

Definition flag_keys : list string :=
  [ "stridor"; "angioedema"; "active_seizures";
    "talking_incomplete_sentences"; "audible_wheeze"; "active_bleeding";
    "sudden_severe_headache"; "history_syncope"; "agitated_violent";
    "acute_chest_pain_lt_24hr"; "suspected_stroke_lt_24hr"; "acute_sob_lt_12hr";
    "acute_limb_ischemia"; "abdominal_pain_sudden_onset"; "acute_urinary_retention";
    "pregnant_3rd_trimester_abdominal_bleed"; "suspected_poisoning_bite";
    "fever_immunocompromised";
    "vomiting_diarrhea_persistent"; "minor_trauma_with_deformity";
    "fever_no_red_flags"; "urinary_symptoms_moderate"; "older_adult_minor_fall";
    "pediatric_fever_irritable"; "chronic_condition_exacerbation";
    "minor_cut_abrasion"; "mild_cold_symptoms"; "medication_refill_request" ].

Definition vital_keys : list string :=
  [ "spo2"; "hr"; "sbp"; "dbp"; "rr"; "temp"; "pain_score" ].

Definition green_keys : list string :=
  [ "minor_cut_abrasion"; "mild_cold_symptoms"; "medication_refill_request" ].

Definition is_flag (d : gmap string pyval) (k : string) : bool :=
  match d !! k with Some (VBool _) => true | _ => false end.

Definition is_vital (d : gmap string pyval) (k : string) : bool :=
  match d !! k with Some (VInt _) | Some (VFloat _) => true | _ => false end.

Definition is_avpu (d : gmap string pyval) : bool :=
  match d !! "avpu" with
  | Some (VStr s) =>
      String.eqb s "A" || String.eqb s "V" || String.eqb s "P" || String.eqb s "U"
  | _ => false
  end.

(** A well-formed PatientSnapshot: every field of the form (lines 167-206) is
    present with the type the form gives it.  No range is imposed on the
    vitals: what is proved of well-formed snapshots holds for every number,
    hence for the documented ranges.  A property that needs the division of
    line 26 to have a value says so ([shock_index_overflows]). *)
Definition well_formed (d : gmap string pyval) : bool :=
  forallb (is_flag d) flag_keys && forallb (is_vital d) vital_keys && is_avpu d.

(** The dict built at lines 167-206 from the form's values. *)
Definition flags_dict (fs : list (string * bool)) : gmap string pyval :=
  list_to_map (map (fun kb => (kb.1, VBool kb.2)) fs).

Definition all_false : gmap string pyval :=
  flags_dict (map (fun k => (k, false)) flag_keys).

(** The form's initial values: SpO2 98, HR 80, SBP 120, DBP 80, RR 16,
    temperature 37.0, pain 0, Alert, nothing ticked. *)
Definition normal_snapshot : gmap string pyval :=
  <["spo2" := VFloat 98]> (<["hr" := VInt 80]> (<["sbp" := VInt 120]>
  (<["dbp" := VInt 80]> (<["rr" := VInt 16]> (<["temp" := VFloat 37]>
  (<["avpu" := VStr "A"]> (<["pain_score" := VInt 0]> all_false))))))).


(** * Vocabulary of the properties *)

(** ** Outcomes *)

Definition prepend {A : Type} (lg : list event) (o : outcome A) : outcome A :=
  let '(lg', st, r) := o in (lg ++ lg', st, r).

Definition and_then {A B : Type} (o : outcome A) (k : A -> store -> outcome B)
  : outcome B :=
  match o with
  | (lg, st, Ok a) => prepend lg (k a st)
  | (lg, st, Err e) => (lg, st, Err e)
  end.

(** The operations a condition performed on the dict [d]. *)
Definition cond_log {A : Type} (c : prog A) (d : gmap string pyval) : list event :=
  log_of (run c (entry d)).

Definition is_read (e : event) : bool :=
  match e with EvGetItem _ => true | _ => false end.

Definition is_nil {A : Type} (l : list A) : bool :=
  match l with [] => true | _ :: _ => false end.

(** The keys read during a run. *)
Fixpoint reads (lg : list event) : list string :=
  match lg with
  | [] => []
  | EvGetItem k :: lg' => k :: reads lg'
  | _ :: lg' => reads lg'
  end.

(** The values assigned to [triage_level] during a run, in order. *)
Fixpoint levels (lg : list event) : list string :=
  match lg with
  | [] => []
  | EvSetLevel l :: lg' => l :: levels lg'
  | _ :: lg' => levels lg'
  end.

(** ** Programs that only read the dict

    [reads_only K c]: the program [c] consists of dict reads only, and every
    key it may read satisfies [K].  The conditions of the cascade are such
    programs: they neither read nor write the locals. *)

Inductive reads_only {A : Type} (K : string -> Prop) : prog A -> Prop :=
| ro_Ret a : reads_only K (Ret a)
| ro_Throw e : reads_only K (Throw e)
| ro_GetItem k cont :
    K k -> (forall v, reads_only K (cont v)) -> reads_only K (GetItem k cont).

Abbreviation reader := (reads_only (fun _ => True)).

(** ** Conditions and tiers *)

(** A condition [fires] on [d] when its test evaluates to a true value. *)
Definition fires (c : prog bool) (d : gmap string pyval) : bool :=
  match eval c d with Ok true => true | _ => false end.

(** A condition is [total] on [d] when its test has a value. *)
Definition total (d : gmap string pyval) (c : prog bool) : Prop :=
  exists b, eval c d = Ok b.

Definition zde_free {A : Type} (c : prog A) : Prop :=
  forall d, eval c d <> Err ZeroDivisionError.

(** The eight guarded blocks of the function, in source order. *)
Inductive tier : Type :=
| Airway | Breathing | Circulation | Consciousness | TimeSensitive | OtherUrgent
| YellowVitals | YellowSymptoms.

Definition tier_cond (t : tier) : prog bool :=
  match t with
  | Airway => airway_cond
  | Breathing => breathing_cond
  | Circulation => circulation_cond
  | Consciousness => consciousness_cond
  | TimeSensitive => time_sensitive_cond
  | OtherUrgent => other_urgent_cond
  | YellowVitals => yellow_vitals_cond
  | YellowSymptoms => yellow_symptoms_cond
  end.

Definition tier_reason (t : tier) : string :=
  match t with
  | Airway => airway_reason
  | Breathing => breathing_reason
  | Circulation => circulation_reason
  | Consciousness => consciousness_reason
  | TimeSensitive => time_sensitive_reason
  | OtherUrgent => other_urgent_reason
  | YellowVitals => yellow_vitals_reason
  | YellowSymptoms => yellow_symptoms_reason
  end.

(** The keys each condition may read. *)
Definition airway_keys : list string :=
  ["stridor"; "angioedema"; "active_seizures"].
Definition breathing_keys : list string :=
  ["talking_incomplete_sentences"; "audible_wheeze"; "rr"; "spo2"].
Definition circulation_keys : list string :=
  ["sbp"; "hr"; "dbp"; "active_bleeding"].
Definition consciousness_keys : list string := ["avpu"].
Definition time_sensitive_keys : list string :=
  ["acute_chest_pain_lt_24hr"; "suspected_stroke_lt_24hr"; "acute_sob_lt_12hr";
   "pain_score"; "sudden_severe_headache"; "acute_limb_ischemia"; "history_syncope";
   "abdominal_pain_sudden_onset"; "fever_immunocompromised";
   "acute_urinary_retention"; "temp"].
Definition other_urgent_keys : list string :=
  ["agitated_violent"; "suspected_poisoning_bite";
   "pregnant_3rd_trimester_abdominal_bleed"].
Definition yellow_vitals_keys : list string := ["rr"; "hr"; "sbp"; "dbp"; "temp"].
Definition yellow_symptoms_keys : list string :=
  ["pain_score"; "vomiting_diarrhea_persistent"; "minor_trauma_with_deformity";
   "fever_no_red_flags"; "urinary_symptoms_moderate"; "older_adult_minor_fall";
   "pediatric_fever_irritable"; "chronic_condition_exacerbation"].

Definition tier_keys (t : tier) : list string :=
  match t with
  | Airway => airway_keys
  | Breathing => breathing_keys
  | Circulation => circulation_keys
  | Consciousness => consciousness_keys
  | TimeSensitive => time_sensitive_keys
  | OtherUrgent => other_urgent_keys
  | YellowVitals => yellow_vitals_keys
  | YellowSymptoms => yellow_symptoms_keys
  end.

(** The RED tiers, in the order of the source. *)
Definition red_tiers : list tier :=
  [Airway; Breathing; Circulation; Consciousness; TimeSensitive; OtherUrgent].

(** The first RED tier whose condition fires, with its position. *)
Definition first_red (d : gmap string pyval) : option (nat * tier) :=
  list_find (fun t => fires (tier_cond t) d = true) red_tiers.

(** No RED condition fires. *)
Definition no_red (d : gmap string pyval) : bool :=
  forallb (fun t => negb (fires (tier_cond t) d)) red_tiers.

(** The shock-index clause of line 29, with the assignment it depends on. *)
Definition shock_index_clause : prog bool :=
  shock_index <- shock_index_expr; lift (py_gt shock_index 1).

(** The division of line 26 is executed on [d] and raises OverflowError:
    the systolic pressure is different from zero, and the heart rate, the
    pressure or their quotient is an integer too large for a float. *)
Definition shock_index_overflows (d : gmap string pyval) : bool :=
  match d !! "sbp", d !! "hr" with
  | Some sbp, Some hr =>
      py_ne0 sbp &&
      match py_truediv hr sbp with Err OverflowError => true | _ => false end
  | _, _ => false
  end.

(** The field [k], when it holds an [int], holds one that [float] accepts. *)
Definition in_float_range (d : gmap string pyval) (k : string) : bool :=
  match d !! k with
  | Some (VInt z) => (Z.abs z <? float_overflow)%Z
  | _ => true
  end.

(** The breathing test without its two respiratory-rate operands, and the
    time-sensitive test without its two temperature operands. *)
Definition breathing_cond_without_rr : prog bool :=
  data_flag "talking_incomplete_sentences" orelse data_flag "audible_wheeze" orelse
  data_lt "spo2" 90.

Definition time_sensitive_cond_without_temp : prog bool :=
  data_flag "acute_chest_pain_lt_24hr" orelse data_flag "suspected_stroke_lt_24hr" orelse
  data_flag "acute_sob_lt_12hr" orelse data_gt "pain_score" 7 orelse
  data_flag "sudden_severe_headache" orelse data_flag "acute_limb_ischemia" orelse
  data_flag "history_syncope" orelse data_flag "abdominal_pain_sudden_onset" orelse
  data_flag "fever_immunocompromised" orelse data_flag "acute_urinary_retention".

(** ** Levels: RED > YELLOW > GREEN *)

Definition rank (l : string) : nat :=
  if String.eqb l "RED" then 2
  else if String.eqb l "YELLOW" then 1
  else 0.

Definition level_le (a b : string) : Prop := (rank a <= rank b)%nat.

Definition is_level (l : string) : Prop :=
  l = "GREEN" \/ l = "YELLOW" \/ l = "RED".

(** Every value assigned to [triage_level] is a level, the assigned values
    never decrease, and the level returned is the last one assigned. *)
Definition monotone_run (o : outcome verdict) : Prop :=
  Forall is_level (levels (log_of o)) /\
  StronglySorted level_le (levels (log_of o)) /\
  (forall l rs, result_of o = Ok (l, rs) -> last (levels (log_of o)) = Some l).

(** ** Fields *)

(** The numeric field [k] of [d] has the value [q]. *)
Definition field_is (d : gmap string pyval) (k : string) (q : Q) : Prop :=
  exists v x, d !! k = Some v /\ as_number v = Some x /\ x == q.

(** The store with key [k] removed from its dict. *)
Definition without (k : string) (st : store) : store :=
  mkStore (delete k (data st)) (triage_level st) (reasons st).

(** The fields of the form, which the input contract requires. *)
Definition required_keys : list string := vital_keys ++ ["avpu"] ++ flag_keys.

Definition has_missing_field (d : gmap string pyval) : bool :=
  existsb (fun k => match d !! k with Some _ => false | None => true end) required_keys.

(** The consciousness value is present and is not one of A, V, P, U. *)
Definition avpu_outside_enum (d : gmap string pyval) : bool :=
  match d !! "avpu" with
  | Some _ => negb (is_avpu d)
  | None => false
  end.

(** ** Test snapshots *)

(** Respiratory rate 21 and pain score 5: both yellow conditions. *)
Definition yellow_both_snapshot : gmap string pyval :=
  <["rr" := VInt 21]> (<["pain_score" := VInt 5]> normal_snapshot).

(** The three green indicators ticked. *)
Definition green_ticked_snapshot : gmap string pyval :=
  <["minor_cut_abrasion" := VBool true]> (<["mild_cold_symptoms" := VBool true]>
  (<["medication_refill_request" := VBool true]> normal_snapshot)).

(** A consciousness value outside the enum. *)
Definition bad_avpu_snapshot : gmap string pyval :=
  <["avpu" := VStr "X"]> normal_snapshot.

(** Stridor ticked and the red flag [active_bleeding] absent. *)
Definition missing_flag_snapshot : gmap string pyval :=
  delete "active_bleeding" (<["stridor" := VBool true]> normal_snapshot).

(** Systolic pressure 0 and heart rate 150. *)
Definition sbp_zero_snapshot : gmap string pyval :=
  <["sbp" := VInt 0]> (<["hr" := VInt 150]> normal_snapshot).

(** A heart rate too large for a float, 10^400; the same with
    consciousness V; the same with temperature 40.1. *)
Definition huge_hr_snapshot : gmap string pyval :=
  <["hr" := VInt (10 ^ 400)]> normal_snapshot.
Definition huge_hr_verbal_snapshot : gmap string pyval :=
  <["avpu" := VStr "V"]> huge_hr_snapshot.
Definition huge_hr_temp401_snapshot : gmap string pyval :=
  <["temp" := VFloat (401 # 10)]> huge_hr_snapshot.

(** The band boundaries. *)
Definition rr22_snapshot : gmap string pyval := <["rr" := VInt 22]> normal_snapshot.
Definition rr23_snapshot : gmap string pyval := <["rr" := VInt 23]> normal_snapshot.
Definition temp40_snapshot : gmap string pyval := <["temp" := VFloat 40]> normal_snapshot.
Definition temp401_snapshot : gmap string pyval :=
  <["temp" := VFloat (401 # 10)]> normal_snapshot.

(** * The form and the button handler (lines 100-221)

    [Form.t] holds what the widgets of lines 105-161 returned when the
    button of line 164 was pressed: two floats, four ints, the text of the
    selected radio option, the slider's int, and one bool per checkbox.  A
    number input and the slider return a value between their [min_value]
    and [max_value] (lines 105-110 and 112); the record keeps this as its
    last field. *)

(* min_value and max_value of lines 105-110, the bounds of the slider of
   line 112 *)
Definition widget_bounds (spo2 : Q) (hr sbp dbp rr : Z) (temp : Q) (pain_score : Z)
  : bool :=
  Qle_bool 0 spo2 && Qle_bool spo2 100 &&
  (0 <=? hr)%Z && (hr <=? 200)%Z &&
  (0 <=? sbp)%Z && (sbp <=? 250)%Z &&
  (0 <=? dbp)%Z && (dbp <=? 150)%Z &&
  (0 <=? rr)%Z && (rr <=? 40)%Z &&
  Qle_bool 25 temp && Qle_bool temp 45 &&
  (0 <=? pain_score)%Z && (pain_score <=? 10)%Z.

Module Form.
Record t : Type := mk {
  spo2 : Q;
  hr : Z;
  sbp : Z;
  dbp : Z;
  rr : Z;
  temp : Q;
  avpu : string;
  pain_score : Z;
  stridor : bool;
  angioedema : bool;
  active_seizures : bool;
  talking_incomplete_sentences : bool;
  audible_wheeze : bool;
  active_bleeding : bool;
  sudden_severe_headache : bool;
  history_syncope : bool;
  agitated_violent : bool;
  acute_chest_pain_lt_24hr : bool;
  suspected_stroke_lt_24hr : bool;
  acute_sob_lt_12hr : bool;
  acute_limb_ischemia : bool;
  abdominal_pain_sudden_onset : bool;
  acute_urinary_retention : bool;
  pregnant_3rd_trimester_abdominal_bleed : bool;
  suspected_poisoning_bite : bool;
  fever_immunocompromised : bool;
  vomiting_diarrhea_persistent : bool;
  minor_trauma_with_deformity : bool;
  fever_no_red_flags : bool;
  urinary_symptoms_moderate : bool;
  older_adult_minor_fall : bool;
  pediatric_fever_irritable : bool;
  chronic_condition_exacerbation : bool;
  minor_cut_abrasion : bool;
  mild_cold_symptoms : bool;
  medication_refill_request : bool;
  bounds : widget_bounds spo2 hr sbp dbp rr temp pain_score = true
}.
End Form.

(** The options of the radio widget (line 111). *)
Definition avpu_options : list string :=
  ["A - Alert"; "V - Verbal"; "P - Pain"; "U - Unresponsive"].

(** [s[0]]: the first character as a string; [None] stands for the
    IndexError of an empty string. *)
Definition py_index0 (s : string) : option string :=
  match s with
  | EmptyString => None
  | String c _ => Some (String c EmptyString)
  end.

(** A dict display [{k1: v1, k2: v2, ...}]: the entries are stored from left
    to right, a later entry replacing an earlier one with the same key. *)
Definition dict_literal (entries : list (string * pyval)) : gmap string pyval :=
  fold_left (fun m kv => <[kv.1 := kv.2]> m) entries ∅.

(* lines 167-206, with the value of [avpu[0]] *)
Definition patient_data_entries (f : Form.t) (avpu0 : string)
  : list (string * pyval) :=
  [ ("spo2", VFloat (Form.spo2 f));
    ("hr", VInt (Form.hr f));
    ("sbp", VInt (Form.sbp f));
    ("dbp", VInt (Form.dbp f));
    ("rr", VInt (Form.rr f));
    ("temp", VFloat (Form.temp f));
    ("avpu", VStr avpu0);
    ("pain_score", VInt (Form.pain_score f));
    ("stridor", VBool (Form.stridor f));
    ("angioedema", VBool (Form.angioedema f));
    ("active_seizures", VBool (Form.active_seizures f));
    ("talking_incomplete_sentences", VBool (Form.talking_incomplete_sentences f));
    ("audible_wheeze", VBool (Form.audible_wheeze f));
    ("active_bleeding", VBool (Form.active_bleeding f));
    ("sudden_severe_headache", VBool (Form.sudden_severe_headache f));
    ("history_syncope", VBool (Form.history_syncope f));
    ("agitated_violent", VBool (Form.agitated_violent f));
    ("acute_chest_pain_lt_24hr", VBool (Form.acute_chest_pain_lt_24hr f));
    ("suspected_stroke_lt_24hr", VBool (Form.suspected_stroke_lt_24hr f));
    ("acute_sob_lt_12hr", VBool (Form.acute_sob_lt_12hr f));
    ("acute_limb_ischemia", VBool (Form.acute_limb_ischemia f));
    ("abdominal_pain_sudden_onset", VBool (Form.abdominal_pain_sudden_onset f));
    ("acute_urinary_retention", VBool (Form.acute_urinary_retention f));
    ("pregnant_3rd_trimester_abdominal_bleed",
       VBool (Form.pregnant_3rd_trimester_abdominal_bleed f));
    ("suspected_poisoning_bite", VBool (Form.suspected_poisoning_bite f));
    ("fever_immunocompromised", VBool (Form.fever_immunocompromised f));
    ("vomiting_diarrhea_persistent", VBool (Form.vomiting_diarrhea_persistent f));
    ("minor_trauma_with_deformity", VBool (Form.minor_trauma_with_deformity f));
    ("fever_no_red_flags", VBool (Form.fever_no_red_flags f));
    ("urinary_symptoms_moderate", VBool (Form.urinary_symptoms_moderate f));
    ("older_adult_minor_fall", VBool (Form.older_adult_minor_fall f));
    ("pediatric_fever_irritable", VBool (Form.pediatric_fever_irritable f));
    ("chronic_condition_exacerbation", VBool (Form.chronic_condition_exacerbation f));
    ("minor_cut_abrasion", VBool (Form.minor_cut_abrasion f));
    ("mild_cold_symptoms", VBool (Form.mild_cold_symptoms f));
    ("medication_refill_request", VBool (Form.medication_refill_request f)) ].

(* lines 167-206; [None] when [avpu[0]] raises *)
Definition patient_data (f : Form.t) : option (gmap string pyval) :=
  match py_index0 (Form.avpu f) with
  | Some avpu0 => Some (dict_literal (patient_data_entries f avpu0))
  | None => None
  end.

(** The keys of [patient_data], in the order of the source. *)
Definition form_keys : list string :=
  [ "spo2"; "hr"; "sbp"; "dbp"; "rr"; "temp"; "avpu"; "pain_score" ] ++ flag_keys.

(** The calls made on the page. *)
Inductive ui_call : Type :=
| st_markdown (body : string)
| st_subheader (body : string)
| st_error (body : string)
| st_warning (body : string)
| st_success (body : string)
| st_write (body : string).

(** The literal of line 211, as the bytes of its UTF-8 encoding: four
    characters outside ASCII followed by " Triage Result:". *)
Definition result_heading : string :=
  String.string_of_list_ascii
    (map Ascii.ascii_of_nat [239; 163; 191; 195; 188; 195; 168; 226; 128; 162])
  +:+ " Triage Result:".

(* lines 212-217 *)
Definition banner (triage_level : string) : ui_call :=
  if String.eqb triage_level "RED" then
    st_error ("**Triage Level: " +:+ triage_level +:+ " - IMMEDIATE ATTENTION REQUIRED**")
  else if String.eqb triage_level "YELLOW" then
    st_warning ("**Triage Level: " +:+ triage_level +:+ " - URGENT CARE REQUIRED**")
  else
    st_success ("**Triage Level: " +:+ triage_level +:+ " - NON-URGENT CARE**").

(* lines 210-221 *)
Definition show_result (v : verdict) : list ui_call :=
  let '(triage_level, reasons_list) := v in
  [ st_markdown "---";
    st_subheader result_heading;
    banner triage_level;
    st_markdown "#### Reasons for Classification:" ] ++
  map (fun reason => st_write ("- " +:+ reason)) reasons_list.

Inductive app_result (A : Type) : Type :=
| Shown (a : A)
| IndexError
| Raised (e : exn).
Arguments Shown {A} a.
Arguments IndexError {A}.
Arguments Raised {A} e.

(* lines 164-221: the body of [if st.button("Classify Triage Level"):] *)
Definition on_click (f : Form.t) : app_result (list ui_call) :=
  match patient_data f with
  | None => IndexError
  | Some d =>
      match classify d with
      | Ok v => Shown (show_result v)
      | Err e => Raised e
      end
  end.

(** The form as first displayed: the [value=] and [index=] arguments of
    lines 105-112, no checkbox ticked. *)
Definition default_form : Form.t :=
  Form.mk 98 80 120 80 16 37 "A - Alert" 0
    false false false false false false false false false false
    false false false false false false false false false false
    false false false false false false false false eq_refl.

(** Forms used as examples: [active_bleeding] ticked; pain score 5. *)
Definition ticked_bleeding_form : Form.t :=
  Form.mk 98 80 120 80 16 37 "A - Alert" 0
    false false false false false true false false false false
    false false false false false false false false false false
    false false false false false false false false eq_refl.

Definition pain_five_form : Form.t :=
  Form.mk 98 80 120 80 16 37 "A - Alert" 5
    false false false false false false false false false false
    false false false false false false false false false false
    false false false false false false false false eq_refl.

(** The form [f] with its three green-indicator checkboxes set anew. *)
Definition with_green_indicators (f : Form.t) (cut cold refill : bool) : Form.t :=
  Form.mk (Form.spo2 f) (Form.hr f) (Form.sbp f) (Form.dbp f) (Form.rr f)
    (Form.temp f) (Form.avpu f) (Form.pain_score f)
    (Form.stridor f) (Form.angioedema f) (Form.active_seizures f)
    (Form.talking_incomplete_sentences f) (Form.audible_wheeze f)
    (Form.active_bleeding f) (Form.sudden_severe_headache f)
    (Form.history_syncope f) (Form.agitated_violent f)
    (Form.acute_chest_pain_lt_24hr f) (Form.suspected_stroke_lt_24hr f)
    (Form.acute_sob_lt_12hr f) (Form.acute_limb_ischemia f)
    (Form.abdominal_pain_sudden_onset f) (Form.acute_urinary_retention f)
    (Form.pregnant_3rd_trimester_abdominal_bleed f) (Form.suspected_poisoning_bite f)
    (Form.fever_immunocompromised f)
    (Form.vomiting_diarrhea_persistent f) (Form.minor_trauma_with_deformity f)
    (Form.fever_no_red_flags f) (Form.urinary_symptoms_moderate f)
    (Form.older_adult_minor_fall f) (Form.pediatric_fever_irritable f)
    (Form.chronic_condition_exacerbation f)
    cut cold refill (Form.bounds f).

(** What the widgets guarantee (lines 105-112): the radio returns one of
    its options, the number inputs and the slider a value between their
    [min_value] and [max_value]; [in_widget_ranges] states the bounds kept
    by [Form.bounds] as inequalities. *)
Definition radio_selected (f : Form.t) : Prop := In (Form.avpu f) avpu_options.

Definition in_widget_ranges (f : Form.t) : Prop :=
  (0 <= Form.spo2 f /\ Form.spo2 f <= 100)%Q /\
  (0 <= Form.hr f <= 200)%Z /\
  (0 <= Form.sbp f <= 250)%Z /\
  (0 <= Form.dbp f <= 150)%Z /\
  (0 <= Form.rr f <= 40)%Z /\
  (25 <= Form.temp f /\ Form.temp f <= 45)%Q /\
  (0 <= Form.pain_score f <= 10)%Z.

(** The red-flag checkboxes of the second column (lines 119-142). *)
Definition red_ticks (f : Form.t) : list bool :=
  [ Form.stridor f; Form.angioedema f; Form.active_seizures f;
    Form.talking_incomplete_sentences f; Form.audible_wheeze f;
    Form.active_bleeding f;
    Form.sudden_severe_headache f; Form.history_syncope f; Form.agitated_violent f;
    Form.acute_chest_pain_lt_24hr f; Form.suspected_stroke_lt_24hr f;
    Form.acute_sob_lt_12hr f; Form.acute_limb_ischemia f;
    Form.abdominal_pain_sudden_onset f; Form.acute_urinary_retention f;
    Form.pregnant_3rd_trimester_abdominal_bleed f; Form.suspected_poisoning_bite f;
    Form.fever_immunocompromised f ].

(** The yellow indicators of the third column (lines 150-156). *)
Definition yellow_ticks (f : Form.t) : list bool :=
  [ Form.vomiting_diarrhea_persistent f; Form.minor_trauma_with_deformity f;
    Form.fever_no_red_flags f; Form.urinary_symptoms_moderate f;
    Form.older_adult_minor_fall f; Form.pediatric_fever_irritable f;
    Form.chronic_condition_exacerbation f ].

Definition any_ticked (ticks : list bool) : bool := existsb (fun b => b) ticks.

(** ** The fields of a snapshot, read as booleans and numbers *)

(** The truth value of field [k] ([false] when absent). *)
Definition flag_of (d : gmap string pyval) (k : string) : bool :=
  match d !! k with
  | Some v => truthy v
  | None => false
  end.

(** The numeric value of field [k] ([0] when absent or not a number). *)
Definition num_of (d : gmap string pyval) (k : string) : Q :=
  match d !! k with
  | Some v => match as_number v with Some q => q | None => 0 end
  | None => 0
  end.

(** Heart rate over systolic pressure, 0 when the pressure is zero. *)
Definition shock_index_of (d : gmap string pyval) : Q :=
  if Qeq_bool (num_of d "sbp") 0 then 0 else num_of d "hr" / num_of d "sbp".

(** The tests of the eight tiers as plain boolean formulas over the fields,
    operand for operand as in [airway_cond] ... [yellow_symptoms_cond]. *)
Definition airway_holds (d : gmap string pyval) : bool :=
  flag_of d "stridor" || (flag_of d "angioedema" || flag_of d "active_seizures").

Definition breathing_holds (d : gmap string pyval) : bool :=
  flag_of d "talking_incomplete_sentences" || (flag_of d "audible_wheeze" ||
  (Qlt_bool 22 (num_of d "rr") || (Qlt_bool (num_of d "rr") 10 ||
   Qlt_bool (num_of d "spo2") 90))).

Definition circulation_holds (d : gmap string pyval) : bool :=
  Qlt_bool (num_of d "hr") 50 || (Qlt_bool 120 (num_of d "hr") ||
  (Qlt_bool (num_of d "sbp") 90 || (Qlt_bool 220 (num_of d "sbp") ||
  (Qlt_bool (num_of d "dbp") 60 || (Qlt_bool 110 (num_of d "dbp") ||
  (Qlt_bool 1 (shock_index_of d) || flag_of d "active_bleeding")))))).

Definition consciousness_holds (d : gmap string pyval) : bool :=
  match d !! "avpu" with
  | Some v => py_in_VPU v
  | None => false
  end.

Definition time_sensitive_holds (d : gmap string pyval) : bool :=
  flag_of d "acute_chest_pain_lt_24hr" || (flag_of d "suspected_stroke_lt_24hr" ||
  (flag_of d "acute_sob_lt_12hr" || (Qlt_bool 7 (num_of d "pain_score") ||
  (flag_of d "sudden_severe_headache" || (flag_of d "acute_limb_ischemia" ||
  (flag_of d "history_syncope" || (flag_of d "abdominal_pain_sudden_onset" ||
  (flag_of d "fever_immunocompromised" || (flag_of d "acute_urinary_retention" ||
  (Qlt_bool 40 (num_of d "temp") || Qlt_bool (num_of d "temp") 35)))))))))).

Definition other_urgent_holds (d : gmap string pyval) : bool :=
  flag_of d "agitated_violent" || (flag_of d "suspected_poisoning_bite" ||
  flag_of d "pregnant_3rd_trimester_abdominal_bleed").

Definition yellow_vitals_holds (d : gmap string pyval) : bool :=
  (Qle_bool 20 (num_of d "rr") && Qle_bool (num_of d "rr") 22) ||
  ((Qle_bool 100 (num_of d "hr") && Qle_bool (num_of d "hr") 120) ||
  ((Qle_bool 180 (num_of d "sbp") && Qle_bool (num_of d "sbp") 220) ||
  ((Qle_bool 100 (num_of d "dbp") && Qle_bool (num_of d "dbp") 110) ||
   (Qle_bool 38 (num_of d "temp") && Qle_bool (num_of d "temp") 40)))).

Definition yellow_symptoms_holds (d : gmap string pyval) : bool :=
  (Qle_bool 4 (num_of d "pain_score") && Qle_bool (num_of d "pain_score") 7) ||
  (flag_of d "vomiting_diarrhea_persistent" || (flag_of d "minor_trauma_with_deformity" ||
  (flag_of d "fever_no_red_flags" || (flag_of d "urinary_symptoms_moderate" ||
  (flag_of d "older_adult_minor_fall" || (flag_of d "pediatric_fever_irritable" ||
   flag_of d "chronic_condition_exacerbation")))))).

Definition tier_holds (t : tier) (d : gmap string pyval) : bool :=
  match t with
  | Airway => airway_holds d
  | Breathing => breathing_holds d
  | Circulation => circulation_holds d
  | Consciousness => consciousness_holds d
  | TimeSensitive => time_sensitive_holds d
  | OtherUrgent => other_urgent_holds d
  | YellowVitals => yellow_vitals_holds d
  | YellowSymptoms => yellow_symptoms_holds d
  end.

(** The most severe level among the tiers whose condition fires. *)
Definition level_from_conditions (d : gmap string pyval) : string :=
  if negb (no_red d) then "RED"
  else if fires yellow_vitals_cond d || fires yellow_symptoms_cond d then "YELLOW"
  else "GREEN".

(** The checkbox keys the cascade reads: the RED flags and the YELLOW flags. *)
Definition red_flag_keys : list string :=
  [ "stridor"; "angioedema"; "active_seizures";
    "talking_incomplete_sentences"; "audible_wheeze"; "active_bleeding";
    "acute_chest_pain_lt_24hr"; "suspected_stroke_lt_24hr"; "acute_sob_lt_12hr";
    "sudden_severe_headache"; "acute_limb_ischemia"; "history_syncope";
    "abdominal_pain_sudden_onset"; "fever_immunocompromised";
    "acute_urinary_retention";
    "agitated_violent"; "suspected_poisoning_bite";
    "pregnant_3rd_trimester_abdominal_bleed" ].

Definition yellow_flag_keys : list string :=
  [ "vomiting_diarrhea_persistent"; "minor_trauma_with_deformity";
    "fever_no_red_flags"; "urinary_symptoms_moderate"; "older_adult_minor_fall";
    "pediatric_fever_irritable"; "chronic_condition_exacerbation" ].

(** The reasons appended during a run, in order. *)
Fixpoint appended (lg : list event) : list string :=
  match lg with
  | [] => []
  | EvAppend r :: lg' => r :: appended lg'
  | _ :: lg' => appended lg'
  end.

(** What an exception of a condition can be: a TypeError, the
    OverflowError of the division of line 26, or the KeyError of an absent
    key among [K]. *)
Definition err_spec {A : Type} (K : string -> Prop) (c : prog A) : Prop :=
  forall d e, eval c d = Err e ->
    e = TypeError \/
    (e = OverflowError /\ shock_index_overflows d = true) \/
    exists k, e = KeyError k /\ d !! k = None /\ K k.

(** ** Ranges *)

(** No RED criterion: every vital within the RED thresholds, the shock index
    at most 1, consciousness not V, P or U, no red-flag checkbox ticked. *)
Definition within_red_limits (d : gmap string pyval) : Prop :=
  (10 <= num_of d "rr" /\ num_of d "rr" <= 22)%Q /\
  (90 <= num_of d "spo2")%Q /\
  (50 <= num_of d "hr" /\ num_of d "hr" <= 120)%Q /\
  (90 <= num_of d "sbp" /\ num_of d "sbp" <= 220)%Q /\
  (60 <= num_of d "dbp" /\ num_of d "dbp" <= 110)%Q /\
  (35 <= num_of d "temp" /\ num_of d "temp" <= 40)%Q /\
  (num_of d "pain_score" <= 7)%Q /\
  (shock_index_of d <= 1)%Q /\
  consciousness_holds d = false /\
  Forall (fun k => flag_of d k = false) red_flag_keys.

(** No criterion at all: every vital below its yellow band as well, and no
    yellow checkbox ticked either. *)
Definition normal_ranges (d : gmap string pyval) : Prop :=
  (10 <= num_of d "rr" /\ num_of d "rr" < 20)%Q /\
  (90 <= num_of d "spo2")%Q /\
  (50 <= num_of d "hr" /\ num_of d "hr" < 100)%Q /\
  (90 <= num_of d "sbp" /\ num_of d "sbp" < 180)%Q /\
  (60 <= num_of d "dbp" /\ num_of d "dbp" < 100)%Q /\
  (35 <= num_of d "temp" /\ num_of d "temp" < 38)%Q /\
  (num_of d "pain_score" < 4)%Q /\
  (shock_index_of d <= 1)%Q /\
  consciousness_holds d = false /\
  Forall (fun k => flag_of d k = false) (red_flag_keys ++ yellow_flag_keys).

(** * Properties of the interpreter *)

Lemma logged_prepend {A : Type} (e : event) (o : outcome A) :
  logged e o = prepend [e] o.
Proof. destruct o as [[lg st] r]. reflexivity. Qed.

Lemma prepend_nil {A : Type} (o : outcome A) : prepend [] o = o.
Proof. destruct o as [[lg st] r]. reflexivity. Qed.

Lemma prepend_prepend {A : Type} (l1 l2 : list event) (o : outcome A) :
  prepend l1 (prepend l2 o) = prepend (l1 ++ l2) o.
Proof. destruct o as [[lg st] r]. simpl. by rewrite app_assoc. Qed.

Lemma prepend_and_then {A B : Type} lg (o : outcome A) (k : A -> store -> outcome B) :
  and_then (prepend lg o) k = prepend lg (and_then o k).
Proof.
  destruct o as [[lg' st] [a|e]]; simpl; [|reflexivity].
  destruct (k a st) as [[lg'' st'] r]. simpl. by rewrite app_assoc.
Qed.

(** Running [m] and then its continuation is running [bind m f]. *)
Lemma run_bind {A B : Type} (m : prog A) (f : A -> prog B) (st : store) :
  run (bind m f) st = and_then (run m st) (fun a st' => run (f a) st').
Proof.
  revert st.
  induction m as [a|e|k cont IH|cont IH|l next IH|cont IH|next IH|r next IH];
    intros st; simpl.
  - by rewrite prepend_nil.
  - reflexivity.
  - destruct (data st !! k) as [v|]; [|reflexivity].
    by rewrite IH, !logged_prepend, prepend_and_then.
  - apply IH.
  - by rewrite IH, !logged_prepend, prepend_and_then.
  - apply IH.
  - by rewrite IH, !logged_prepend, prepend_and_then.
  - by rewrite IH, !logged_prepend, prepend_and_then.
Qed.

(** No program changes the dict it was given. *)
Lemma run_data {A : Type} (p : prog A) (st : store) :
  data (store_of (run p st)) = data st.
Proof.
  revert st.
  induction p as [a|e|k cont IH|cont IH|l next IH|cont IH|next IH|r next IH];
    intros st; simpl; try reflexivity.
  - destruct (data st !! k) as [v|]; [|reflexivity].
    specialize (IH v st). destruct (run (cont v) st) as [[lg st'] r']. exact IH.
  - apply IH.
  - specialize (IH (mkStore (data st) l (reasons st))).
    destruct (run next _) as [[lg st'] r']. exact IH.
  - apply IH.
  - specialize (IH (mkStore (data st) (triage_level st) [])).
    destruct (run next _) as [[lg st'] r']. exact IH.
  - specialize (IH (mkStore (data st) (triage_level st) (reasons st ++ [r]))).
    destruct (run next _) as [[lg st'] r']. exact IH.
Qed.

(** ** Readers: the conditions of the cascade *)

Lemma reads_only_weaken {A : Type} (K K' : string -> Prop) (c : prog A) :
  (forall k, K k -> K' k) -> reads_only K c -> reads_only K' c.
Proof.
  intros HK Hc. induction Hc as [a|e|k cont Hk _ IH]; constructor; auto.
Qed.

Section ReadsOnly.
Context (K : string -> Prop).

Lemma ro_bind {A B : Type} (m : prog A) (f : A -> prog B) :
  reads_only K m -> (forall a, reads_only K (f a)) -> reads_only K (bind m f).
Proof.
  intros Hm Hf. induction Hm as [a|e|k cont Hk _ IH]; simpl.
  - apply Hf.
  - constructor.
  - constructor; [exact Hk|exact IH].
Qed.

Lemma ro_lift {A : Type} (r : result A) : reads_only K (lift r).
Proof. destruct r; constructor. Qed.

Lemma ro_getitem k : K k -> reads_only K (getitem k).
Proof. intros Hk. constructor; [exact Hk|]. intros v. constructor. Qed.

Lemma ro_por a b : reads_only K a -> reads_only K b -> reads_only K (a orelse b).
Proof. intros Ha Hb. apply ro_bind; [exact Ha|]. intros []; [constructor|exact Hb]. Qed.

Lemma ro_pand a b : reads_only K a -> reads_only K b -> reads_only K (a andalso b).
Proof. intros Ha Hb. apply ro_bind; [exact Ha|]. intros []; [exact Hb|constructor]. Qed.

Lemma ro_flag k : K k -> reads_only K (data_flag k).
Proof. intros Hk. apply ro_bind; [by apply ro_getitem|]. intros v. constructor. Qed.

Lemma ro_lt k c : K k -> reads_only K (data_lt k c).
Proof. intros Hk. apply ro_bind; [by apply ro_getitem|]. intros v. apply ro_lift. Qed.
Lemma ro_gt k c : K k -> reads_only K (data_gt k c).
Proof. intros Hk. apply ro_bind; [by apply ro_getitem|]. intros v. apply ro_lift. Qed.
Lemma ro_le k c : K k -> reads_only K (data_le k c).
Proof. intros Hk. apply ro_bind; [by apply ro_getitem|]. intros v. apply ro_lift. Qed.
Lemma ro_ge k c : K k -> reads_only K (data_ge k c).
Proof. intros Hk. apply ro_bind; [by apply ro_getitem|]. intros v. apply ro_lift. Qed.

Lemma ro_shock_index : K "sbp" -> K "hr" -> reads_only K shock_index_expr.
Proof.
  intros Hs Hh. apply ro_bind; [by apply ro_getitem|]. intros sbp.
  destruct (py_ne0 sbp); [|constructor].
  apply ro_bind; [by apply ro_getitem|]. intros hr.
  apply ro_bind; [by apply ro_getitem|]. intros sbp'. apply ro_lift.
Qed.
End ReadsOnly.

Ltac in_keys := simpl; repeat first [ left; reflexivity | right ].

Ltac ro_atoms :=
  repeat first [ apply ro_por | apply ro_pand ];
  first [ apply ro_flag | apply ro_lt | apply ro_gt | apply ro_le | apply ro_ge
        | apply ro_lift ];
  in_keys.

Lemma reads_airway : reads_only (fun k => In k airway_keys) airway_cond.
Proof. unfold airway_cond. ro_atoms. Qed.
Lemma reads_breathing : reads_only (fun k => In k breathing_keys) breathing_cond.
Proof. unfold breathing_cond. ro_atoms. Qed.
Lemma reads_circulation : reads_only (fun k => In k circulation_keys) circulation_cond.
Proof.
  apply ro_bind; [apply ro_shock_index; in_keys|]. intros si. ro_atoms.
Qed.
Lemma reads_consciousness : reads_only (fun k => In k consciousness_keys) consciousness_cond.
Proof. apply ro_bind; [apply ro_getitem; in_keys|]. intros v. constructor. Qed.
Lemma reads_time_sensitive :
  reads_only (fun k => In k time_sensitive_keys) time_sensitive_cond.
Proof. unfold time_sensitive_cond. ro_atoms. Qed.
Lemma reads_other_urgent : reads_only (fun k => In k other_urgent_keys) other_urgent_cond.
Proof. unfold other_urgent_cond. ro_atoms. Qed.
Lemma reads_yellow_vitals : reads_only (fun k => In k yellow_vitals_keys) yellow_vitals_cond.
Proof. unfold yellow_vitals_cond. ro_atoms. Qed.
Lemma reads_yellow_symptoms :
  reads_only (fun k => In k yellow_symptoms_keys) yellow_symptoms_cond.
Proof. unfold yellow_symptoms_cond. ro_atoms. Qed.

Lemma reader_of {A : Type} (K : string -> Prop) (c : prog A) :
  reads_only K c -> reader c.
Proof. apply reads_only_weaken. auto. Qed.

Lemma reader_por a b : reader a -> reader b -> reader (a orelse b).
Proof. apply ro_por. Qed.
Lemma reader_pand a b : reader a -> reader b -> reader (a andalso b).
Proof. apply ro_pand. Qed.
Lemma reader_getitem k : reader (getitem k).
Proof. by apply ro_getitem. Qed.
Lemma reader_lift {A : Type} (r : result A) : reader (lift r).
Proof. apply ro_lift. Qed.
Lemma reader_flag k : reader (data_flag k).
Proof. by apply ro_flag. Qed.
Lemma reader_lt k c : reader (data_lt k c).
Proof. by apply ro_lt. Qed.
Lemma reader_gt k c : reader (data_gt k c).
Proof. by apply ro_gt. Qed.
Lemma reader_le k c : reader (data_le k c).
Proof. by apply ro_le. Qed.
Lemma reader_ge k c : reader (data_ge k c).
Proof. by apply ro_ge. Qed.
Lemma reader_shock_index : reader shock_index_expr.
Proof. by apply ro_shock_index. Qed.
Lemma reader_airway : reader airway_cond.
Proof. exact (reader_of _ _ reads_airway). Qed.
Lemma reader_breathing : reader breathing_cond.
Proof. exact (reader_of _ _ reads_breathing). Qed.
Lemma reader_circulation : reader circulation_cond.
Proof. exact (reader_of _ _ reads_circulation). Qed.
Lemma reader_consciousness : reader consciousness_cond.
Proof. exact (reader_of _ _ reads_consciousness). Qed.
Lemma reader_time_sensitive : reader time_sensitive_cond.
Proof. exact (reader_of _ _ reads_time_sensitive). Qed.
Lemma reader_other_urgent : reader other_urgent_cond.
Proof. exact (reader_of _ _ reads_other_urgent). Qed.
Lemma reader_yellow_vitals : reader yellow_vitals_cond.
Proof. exact (reader_of _ _ reads_yellow_vitals). Qed.
Lemma reader_yellow_symptoms : reader yellow_symptoms_cond.
Proof. exact (reader_of _ _ reads_yellow_symptoms). Qed.

Create HintDb reader.
#[local] Hint Resolve reader_por reader_pand reader_flag reader_lt reader_gt
  reader_le reader_ge reader_lift reader_getitem
  reader_shock_index reader_airway reader_breathing
  reader_circulation reader_consciousness reader_time_sensitive
  reader_other_urgent reader_yellow_vitals reader_yellow_symptoms : reader.

(** A reader leaves the store as it found it, and what it reads and returns
    depends on the dict alone. *)
Lemma run_reader {A : Type} (c : prog A) (st : store) :
  reader c -> run c st = (cond_log c (data st), st, eval c (data st)).
Proof.
  intros Hc. unfold cond_log, eval.
  induction Hc as [a|e|k cont _ _ IH]; simpl; try reflexivity.
  destruct (data st !! k) as [v|]; [|reflexivity].
  rewrite IH. destruct (run (cont v) (entry (data st))) as [[lg st'] r]. reflexivity.
Qed.

Lemma cond_log_reads {A : Type} (c : prog A) (d : gmap string pyval) :
  reader c -> forallb is_read (cond_log c d) = true.
Proof.
  intros Hc. unfold cond_log.
  induction Hc as [a|e|k cont _ _ IH]; simpl; try reflexivity.
  destruct (d !! k) as [v|]; [|reflexivity].
  specialize (IH v). destruct (run (cont v) (entry d)) as [[lg st'] r]. exact IH.
Qed.

(** ** Execution rules of the statements of the cascade *)

Lemma run_cond_bind {B : Type} (c : prog bool) (k : bool -> prog B) (st : store) :
  reader c ->
  run (bind c k) st =
    match eval c (data st) with
    | Ok b => prepend (cond_log c (data st)) (run (k b) st)
    | Err e => (cond_log c (data st), st, Err e)
    end.
Proof.
  intros Hc. rewrite run_bind, (run_reader c st Hc).
  destruct (eval c (data st)); reflexivity.
Qed.

Lemma run_return_pair (st : store) :
  run return_pair st = ([], st, Ok (triage_level st, reasons st)).
Proof. reflexivity. Qed.

(* lines 9-10 *)
Lemma run_init (k : prog verdict) (st : store) :
  run (new_reasons;; set_level "GREEN";; k) st =
    prepend [EvNewReasons; EvSetLevel "GREEN"] (run k (mkStore (data st) "GREEN" [])).
Proof.
  simpl. destruct (run k _) as [[lg st'] r]. reflexivity.
Qed.

Ltac close_run :=
  repeat match goal with
         | |- context [run ?k ?s] => destruct (run k s) as [[? ?] ?]
         end;
  simpl; rewrite ?app_nil_r, <- ?app_assoc; reflexivity.

Lemma run_red_tier (c : prog bool) (r : string) (k : prog verdict) (st : store) :
  reader c ->
  run (red_tier c r ;;; k) st =
    match eval c (data st) with
    | Ok true =>
        (cond_log c (data st) ++ [EvAppend r; EvSetLevel "RED"],
         mkStore (data st) "RED" (reasons st ++ [r]),
         Ok ("RED", reasons st ++ [r]))
    | Ok false => prepend (cond_log c (data st)) (run k st)
    | Err e => (cond_log c (data st), st, Err e)
    end.
Proof.
  intros Hc. unfold seq, red_tier. rewrite run_bind, (run_cond_bind _ _ _ Hc).
  destruct (eval c (data st)) as [[|]|e]; simpl; close_run.
Qed.

Lemma run_yellow_vitals_tier (k : prog verdict) (st : store) :
  run (yellow_vitals_tier ;;; k) st =
    match eval yellow_vitals_cond (data st) with
    | Ok true =>
        prepend
          (cond_log yellow_vitals_cond (data st) ++
           [EvAppend yellow_vitals_reason; EvSetLevel "YELLOW"])
          (run k (mkStore (data st) "YELLOW" (reasons st ++ [yellow_vitals_reason])))
    | Ok false => prepend (cond_log yellow_vitals_cond (data st)) (run k st)
    | Err e => (cond_log yellow_vitals_cond (data st), st, Err e)
    end.
Proof.
  unfold seq, yellow_vitals_tier.
  rewrite run_bind, (run_cond_bind _ _ _ reader_yellow_vitals).
  destruct (eval yellow_vitals_cond (data st)) as [[|]|e]; simpl; close_run.
Qed.

Lemma run_yellow_symptoms_tier (k : prog verdict) (st : store) :
  run (yellow_symptoms_tier ;;; k) st =
    match eval yellow_symptoms_cond (data st) with
    | Ok true =>
        if String.eqb (triage_level st) "GREEN" then
          prepend
            (cond_log yellow_symptoms_cond (data st) ++
             [EvAppend yellow_symptoms_reason; EvSetLevel "YELLOW"])
            (run k (mkStore (data st) "YELLOW" (reasons st ++ [yellow_symptoms_reason])))
        else if String.eqb (triage_level st) "YELLOW" && is_nil (reasons st) then
          prepend
            (cond_log yellow_symptoms_cond (data st) ++ [EvAppend yellow_symptoms_reason])
            (run k (mkStore (data st) (triage_level st)
                      (reasons st ++ [yellow_symptoms_reason])))
        else prepend (cond_log yellow_symptoms_cond (data st)) (run k st)
    | Ok false => prepend (cond_log yellow_symptoms_cond (data st)) (run k st)
    | Err e => (cond_log yellow_symptoms_cond (data st), st, Err e)
    end.
Proof.
  unfold seq, yellow_symptoms_tier.
  rewrite run_bind, (run_cond_bind _ _ _ reader_yellow_symptoms).
  destruct st as [d l rs]; simpl.
  destruct (eval yellow_symptoms_cond d) as [[|]|e]; simpl; [|close_run..].
  destruct (String.eqb l "GREEN"); simpl; [close_run|].
  destruct (String.eqb l "YELLOW"); simpl; [|close_run].
  destruct rs as [|r0 rs]; simpl; close_run.
Qed.

Lemma run_default_tier (k : prog verdict) (st : store) :
  run (default_tier ;;; k) st =
    if is_nil (reasons st) then
      prepend [EvAppend default_reason; EvSetLevel "GREEN"]
        (run k (mkStore (data st) "GREEN" (reasons st ++ [default_reason])))
    else if String.eqb (triage_level st) "GREEN" && is_nil (reasons st) then
      prepend [EvAppend minor_reason]
        (run k (mkStore (data st) (triage_level st) (reasons st ++ [minor_reason])))
    else run k st.
Proof.
  unfold seq, default_tier. destruct st as [d l rs]. simpl.
  destruct rs as [|r0 rs]; simpl; [close_run|].
  destruct (String.eqb l "GREEN"); simpl; close_run.
Qed.

(** The body of the function, statement by statement. *)
Ltac exec_cascade :=
  unfold call, classify_patient_aiims_atp, airway_tier, breathing_tier,
    circulation_tier, consciousness_tier, time_sensitive_tier, other_urgent_tier;
  rewrite !run_init;
  rewrite !run_red_tier by auto with reader;
  rewrite ?run_yellow_vitals_tier, ?run_yellow_symptoms_tier, ?run_default_tier,
    ?run_return_pair;
  simpl.

(** ** The value of a condition *)

Lemma eval_bind {A B : Type} (m : prog A) (f : A -> prog B) (d : gmap string pyval) :
  reader m ->
  eval (bind m f) d = match eval m d with Ok a => eval (f a) d | Err e => Err e end.
Proof.
  intros Hm. unfold eval at 1. rewrite run_bind, (run_reader m _ Hm). simpl.
  destruct (eval m d) as [a|e]; [|reflexivity].
  unfold eval. destruct (run (f a) (entry d)) as [[lg st] r]. reflexivity.
Qed.

Lemma eval_getitem (k : string) (d : gmap string pyval) :
  eval (getitem k) d = match d !! k with Some v => Ok v | None => Err (KeyError k) end.
Proof. unfold eval. simpl. destruct (d !! k); reflexivity. Qed.

Lemma eval_lift {A : Type} (r : result A) (d : gmap string pyval) : eval (lift r) d = r.
Proof. destruct r; reflexivity. Qed.

Lemma eval_flag (k : string) (d : gmap string pyval) :
  eval (data_flag k) d =
    match d !! k with Some v => Ok (truthy v) | None => Err (KeyError k) end.
Proof.
  unfold data_flag. rewrite eval_bind, eval_getitem by apply reader_getitem.
  destruct (d !! k); reflexivity.
Qed.

Lemma eval_lt (k : string) (c : Q) (d : gmap string pyval) :
  eval (data_lt k c) d =
    match d !! k with Some v => py_lt v c | None => Err (KeyError k) end.
Proof.
  unfold data_lt. rewrite eval_bind, eval_getitem by apply reader_getitem.
  destruct (d !! k); [apply eval_lift|reflexivity].
Qed.

Lemma eval_gt (k : string) (c : Q) (d : gmap string pyval) :
  eval (data_gt k c) d =
    match d !! k with Some v => py_gt v c | None => Err (KeyError k) end.
Proof.
  unfold data_gt. rewrite eval_bind, eval_getitem by apply reader_getitem.
  destruct (d !! k); [apply eval_lift|reflexivity].
Qed.

Lemma eval_le (k : string) (c : Q) (d : gmap string pyval) :
  eval (data_le k c) d =
    match d !! k with Some v => py_le v c | None => Err (KeyError k) end.
Proof.
  unfold data_le. rewrite eval_bind, eval_getitem by apply reader_getitem.
  destruct (d !! k); [apply eval_lift|reflexivity].
Qed.

Lemma eval_ge (k : string) (c : Q) (d : gmap string pyval) :
  eval (data_ge k c) d =
    match d !! k with Some v => py_ge v c | None => Err (KeyError k) end.
Proof.
  unfold data_ge. rewrite eval_bind, eval_getitem by apply reader_getitem.
  destruct (d !! k); [apply eval_lift|reflexivity].
Qed.

Lemma eval_por (a b : prog bool) (d : gmap string pyval) :
  reader a ->
  eval (a orelse b) d =
    match eval a d with
    | Ok true => Ok true
    | Ok false => eval b d
    | Err e => Err e
    end.
Proof.
  intros Ha. unfold por. rewrite (eval_bind _ _ _ Ha).
  destruct (eval a d) as [[|]|e]; reflexivity.
Qed.

Lemma eval_pand (a b : prog bool) (d : gmap string pyval) :
  reader a ->
  eval (a andalso b) d =
    match eval a d with
    | Ok true => eval b d
    | Ok false => Ok false
    | Err e => Err e
    end.
Proof.
  intros Ha. unfold pand. rewrite (eval_bind _ _ _ Ha).
  destruct (eval a d) as [[|]|e]; reflexivity.
Qed.

(** ** Well-formed snapshots: every condition has a value *)

Lemma total_por a b d : reader a -> total d a -> total d b -> total d (a orelse b).
Proof.
  intros Ha [x Hx] [y Hy]. unfold total. rewrite (eval_por _ _ _ Ha), Hx.
  destruct x; eauto.
Qed.

Lemma total_pand a b d : reader a -> total d a -> total d b -> total d (a andalso b).
Proof.
  intros Ha [x Hx] [y Hy]. unfold total. rewrite (eval_pand _ _ _ Ha), Hx.
  destruct x; eauto.
Qed.

Lemma wf_flag d k :
  well_formed d = true -> In k flag_keys -> exists b, d !! k = Some (VBool b).
Proof.
  unfold well_formed. rewrite !andb_true_iff. intros [[Hf _] _] Hin.
  rewrite forallb_forall in Hf. specialize (Hf k Hin). unfold is_flag in Hf.
  destruct (d !! k) as [[| b | | |]|]; try discriminate. eauto.
Qed.

Lemma wf_vital d k :
  well_formed d = true -> In k vital_keys ->
  exists v q, d !! k = Some v /\ as_number v = Some q.
Proof.
  unfold well_formed. rewrite !andb_true_iff. intros [[_ Hv] _] Hin.
  rewrite forallb_forall in Hv. specialize (Hv k Hin). unfold is_vital in Hv.
  destruct (d !! k) as [[| | z | q |]|]; try discriminate; simpl; eauto.
Qed.

Lemma wf_avpu d :
  well_formed d = true -> exists s, d !! "avpu" = Some (VStr s).
Proof.
  unfold well_formed. rewrite !andb_true_iff. intros [_ Ha]. unfold is_avpu in Ha.
  destruct (d !! "avpu") as [[| | | |s]|]; try discriminate. eauto.
Qed.

Lemma total_flag d k :
  well_formed d = true -> In k flag_keys -> total d (data_flag k).
Proof.
  intros Hwf Hin. destruct (wf_flag d k Hwf Hin) as [b Hb].
  exists b. by rewrite eval_flag, Hb.
Qed.

Lemma total_lt d k c : well_formed d = true -> In k vital_keys -> total d (data_lt k c).
Proof.
  intros Hwf Hin. destruct (wf_vital d k Hwf Hin) as (v & q & Hv & Hq).
  unfold total. rewrite eval_lt, Hv. unfold py_lt, py_compare. rewrite Hq. eauto.
Qed.
Lemma total_gt d k c : well_formed d = true -> In k vital_keys -> total d (data_gt k c).
Proof.
  intros Hwf Hin. destruct (wf_vital d k Hwf Hin) as (v & q & Hv & Hq).
  unfold total. rewrite eval_gt, Hv. unfold py_gt, py_compare. rewrite Hq. eauto.
Qed.
Lemma total_le d k c : well_formed d = true -> In k vital_keys -> total d (data_le k c).
Proof.
  intros Hwf Hin. destruct (wf_vital d k Hwf Hin) as (v & q & Hv & Hq).
  unfold total. rewrite eval_le, Hv. unfold py_le, py_compare. rewrite Hq. eauto.
Qed.
Lemma total_ge d k c : well_formed d = true -> In k vital_keys -> total d (data_ge k c).
Proof.
  intros Hwf Hin. destruct (wf_vital d k Hwf Hin) as (v & q & Hv & Hq).
  unfold total. rewrite eval_ge, Hv. unfold py_ge, py_compare. rewrite Hq. eauto.
Qed.

Ltac total_atoms Hwf :=
  repeat first
    [ apply total_por; [auto 20 with reader | |]
    | apply total_pand; [auto 20 with reader | |] ];
  first [ apply (total_flag _ _ Hwf); in_keys
        | apply (total_lt _ _ _ Hwf); in_keys
        | apply (total_gt _ _ _ Hwf); in_keys
        | apply (total_le _ _ _ Hwf); in_keys
        | apply (total_ge _ _ _ Hwf); in_keys ].

(** ** The division of line 26 *)

Lemma Qeq_bool_inject_Z_0 z : Qeq_bool (inject_Z z) 0 = (z =? 0)%Z.
Proof. unfold Qeq_bool, inject_Z. simpl. by rewrite Z.mul_1_r. Qed.

(** On two numbers, with a divisor different from zero, the division gives
    the quotient unless it overflows. *)
Lemma truediv_numbers a b x y :
  as_number a = Some x -> as_number b = Some y -> Qeq_bool y 0 = false ->
  py_truediv a b = Ok (VFloat (x / y)) \/ py_truediv a b = Err OverflowError.
Proof.
  intros Ha Hb Hy.
  destruct a as [|ba|za|qa|sa]; try discriminate Ha;
    destruct b as [|bb|zb|qb|sb]; try discriminate Hb;
    simpl in Ha, Hb; injection Ha as <-; injection Hb as <-;
    cbv beta iota delta [py_truediv as_int as_float option_map int_truediv
                         float_of_int float_truediv];
    try (destruct bb; [|discriminate Hy]);
    try (destruct ba);
    cbn [Z.b2z];
    rewrite ?Qeq_bool_inject_Z_0 in Hy;
    repeat first
      [ rewrite Qeq_bool_inject_Z_0
      | rewrite Hy
      | match goal with
        | |- context [if ?c then _ else _] => destruct c eqn:?
        end ];
    try discriminate;
    (left; reflexivity) || (right; reflexivity).
Qed.

Lemma eval_shock_index d :
  eval shock_index_expr d =
    match d !! "sbp" with
    | None => Err (KeyError "sbp")
    | Some sbp =>
        if py_ne0 sbp
        then match d !! "hr" with
             | None => Err (KeyError "hr")
             | Some hr => py_truediv hr sbp
             end
        else Ok (VInt 0)
    end.
Proof.
  unfold shock_index_expr.
  rewrite eval_bind, eval_getitem by apply reader_getitem.
  destruct (d !! "sbp") as [sbp|] eqn:Hsbp; [|reflexivity].
  destruct (py_ne0 sbp); [|reflexivity].
  rewrite eval_bind, eval_getitem by apply reader_getitem.
  destruct (d !! "hr") as [hr|]; [|reflexivity].
  rewrite eval_bind, eval_getitem, Hsbp by apply reader_getitem.
  apply eval_lift.
Qed.

(** [shock_index_overflows] says when line 26 raises OverflowError. *)
Lemma shock_index_overflows_spec d :
  eval shock_index_expr d = Err OverflowError <-> shock_index_overflows d = true.
Proof.
  rewrite eval_shock_index. unfold shock_index_overflows.
  destruct (d !! "sbp") as [sbp|]; [|split; discriminate].
  destruct (py_ne0 sbp); simpl.
  - destruct (d !! "hr") as [hr|]; [|split; discriminate].
    destruct (py_truediv hr sbp) as [v|[k| | |]]; split; (discriminate || reflexivity).
  - destruct (d !! "hr"); split; discriminate.
Qed.

(** The shock index of a well-formed snapshot is a number, unless the
    division overflows. *)
Lemma wf_shock_index d :
  well_formed d = true ->
  shock_index_overflows d = false ->
  exists si q, eval shock_index_expr d = Ok si /\ as_number si = Some q.
Proof.
  intros Hwf Hfit.
  destruct (wf_vital d "sbp" Hwf ltac:(in_keys)) as (sbp & qs & Hsbp & Hqs).
  destruct (wf_vital d "hr" Hwf ltac:(in_keys)) as (hr & qh & Hhr & Hqh).
  unfold shock_index_overflows in Hfit. rewrite Hsbp, Hhr in Hfit.
  rewrite eval_shock_index, Hsbp, Hhr.
  unfold py_ne0 in *. rewrite Hqs in *.
  destruct (Qeq_bool qs 0) eqn:Hz; cbn [negb andb] in *.
  - exists (VInt 0), (inject_Z 0). split; reflexivity.
  - destruct (truediv_numbers hr sbp qh qs Hqh Hqs Hz) as [E|E]; rewrite E in *.
    + exists (VFloat (qh / qs)), (qh / qs)%Q. split; reflexivity.
    + discriminate Hfit.
Qed.

Lemma total_airway d : well_formed d = true -> total d airway_cond.
Proof. intros Hwf. unfold airway_cond. total_atoms Hwf. Qed.

Lemma total_breathing d : well_formed d = true -> total d breathing_cond.
Proof. intros Hwf. unfold breathing_cond. total_atoms Hwf. Qed.

Lemma total_circulation d :
  well_formed d = true -> shock_index_overflows d = false ->
  total d circulation_cond.
Proof.
  intros Hwf Hfit. destruct (wf_shock_index d Hwf Hfit) as (si & q & Hsi & Hq).
  unfold total, circulation_cond.
  rewrite eval_bind, Hsi by apply reader_shock_index.
  fold (total d
    (data_lt "hr" 50 orelse data_gt "hr" 120 orelse data_lt "sbp" 90 orelse
     data_gt "sbp" 220 orelse data_lt "dbp" 60 orelse data_gt "dbp" 110 orelse
     lift (py_gt si 1) orelse data_flag "active_bleeding")).
  repeat first
    [ apply total_por; [auto 20 with reader | |] ];
  first [ apply (total_flag _ _ Hwf); in_keys
        | apply (total_lt _ _ _ Hwf); in_keys
        | apply (total_gt _ _ _ Hwf); in_keys
        | idtac ].
  unfold total. rewrite eval_lift. unfold py_gt, py_compare. rewrite Hq. eauto.
Qed.

Lemma total_consciousness d : well_formed d = true -> total d consciousness_cond.
Proof.
  intros Hwf. destruct (wf_avpu d Hwf) as [s Hs].
  unfold total, consciousness_cond.
  rewrite eval_bind, eval_getitem, Hs by apply reader_getitem. eauto.
Qed.

Lemma total_time_sensitive d : well_formed d = true -> total d time_sensitive_cond.
Proof. intros Hwf. unfold time_sensitive_cond. total_atoms Hwf. Qed.

Lemma total_other_urgent d : well_formed d = true -> total d other_urgent_cond.
Proof. intros Hwf. unfold other_urgent_cond. total_atoms Hwf. Qed.

Lemma total_yellow_vitals d : well_formed d = true -> total d yellow_vitals_cond.
Proof. intros Hwf. unfold yellow_vitals_cond. total_atoms Hwf. Qed.

Lemma total_yellow_symptoms d : well_formed d = true -> total d yellow_symptoms_cond.
Proof. intros Hwf. unfold yellow_symptoms_cond. total_atoms Hwf. Qed.

(** ** The tiers of the cascade *)

Lemma reader_tier_cond t : reader (tier_cond t).
Proof. destruct t; simpl; auto with reader. Qed.

Lemma total_tier_cond d t :
  well_formed d = true -> shock_index_overflows d = false ->
  total d (tier_cond t).
Proof.
  intros Hwf Hfit.
  destruct t; simpl;
    auto using total_airway, total_breathing, total_circulation,
      total_consciousness, total_time_sensitive, total_other_urgent,
      total_yellow_vitals, total_yellow_symptoms.
Qed.

(** On a well-formed snapshot the eight conditions have values [b1 .. b8]. *)
Ltac wf_evals Hwf Hfit :=
  let go t b E := destruct (total_tier_cond _ t Hwf Hfit) as [b E]; simpl in E in
  go Airway ltac:(fresh "b1") ltac:(fresh "E1");
  go Breathing ltac:(fresh "b2") ltac:(fresh "E2");
  go Circulation ltac:(fresh "b3") ltac:(fresh "E3");
  go Consciousness ltac:(fresh "b4") ltac:(fresh "E4");
  go TimeSensitive ltac:(fresh "b5") ltac:(fresh "E5");
  go OtherUrgent ltac:(fresh "b6") ltac:(fresh "E6");
  go YellowVitals ltac:(fresh "b7") ltac:(fresh "E7");
  go YellowSymptoms ltac:(fresh "b8") ltac:(fresh "E8").

Ltac rewrite_evals :=
  repeat match goal with
         | E : eval ?c ?d = Ok _ |- context [eval ?c ?d] => rewrite E
         end.

(** ** The sequence of values taken by [triage_level] *)

Lemma levels_app lg1 lg2 : levels (lg1 ++ lg2) = levels lg1 ++ levels lg2.
Proof.
  induction lg1 as [|[k|l| |r] lg1 IH]; simpl; [reflexivity|exact IH| |exact IH..].
  by rewrite IH.
Qed.

Lemma levels_reads lg : forallb is_read lg = true -> levels lg = [].
Proof.
  induction lg as [|[k|l| |r] lg IH]; simpl; try discriminate; auto.
Qed.

Lemma levels_cond_log {A : Type} (c : prog A) d : reader c -> levels (cond_log c d) = [].
Proof. intros Hc. apply levels_reads, cond_log_reads, Hc. Qed.

(** ** Dicts that agree on the keys read *)

Lemma reads_only_frame {A : Type} (K : string -> Prop) (c : prog A)
    (d1 d2 : gmap string pyval) :
  reads_only K c ->
  (forall k, K k -> d1 !! k = d2 !! k) ->
  cond_log c d1 = cond_log c d2 /\ eval c d1 = eval c d2.
Proof.
  intros Hc Hagree. unfold cond_log, eval.
  induction Hc as [a|e|k cont Hk _ IH]; simpl; try (split; reflexivity).
  rewrite <- (Hagree k Hk).
  destruct (d1 !! k) as [v|]; [|split; reflexivity].
  destruct (IH v) as [IH1 IH2].
  destruct (run (cont v) (entry d1)) as [[lg1 st1] r1].
  destruct (run (cont v) (entry d2)) as [[lg2 st2] r2].
  unfold log_of, result_of in *. simpl in *. subst. split; reflexivity.
Qed.

Lemma reads_tier_cond t : reads_only (fun k => In k (tier_keys t)) (tier_cond t).
Proof.
  destruct t; simpl;
    auto using reads_airway, reads_breathing, reads_circulation, reads_consciousness,
      reads_time_sensitive, reads_other_urgent, reads_yellow_vitals,
      reads_yellow_symptoms.
Qed.

Ltac same := split; reflexivity.

(** Two dicts on which the eight conditions read and evaluate alike are
    classified alike, by the same sequence of operations. *)
Lemma call_congruence (d1 d2 : gmap string pyval) :
  (forall t, cond_log (tier_cond t) d1 = cond_log (tier_cond t) d2 /\
             eval (tier_cond t) d1 = eval (tier_cond t) d2) ->
  log_of (call d1) = log_of (call d2) /\ classify d1 = classify d2.
Proof.
  intros H.
  destruct (H Airway) as [L1 V1], (H Breathing) as [L2 V2],
    (H Circulation) as [L3 V3], (H Consciousness) as [L4 V4],
    (H TimeSensitive) as [L5 V5], (H OtherUrgent) as [L6 V6],
    (H YellowVitals) as [L7 V7], (H YellowSymptoms) as [L8 V8].
  simpl in *. unfold classify. exec_cascade.
  rewrite L1, L2, L3, L4, L5, L6, L7, L8, V1, V2, V3, V4, V5, V6, V7, V8.
  destruct (eval airway_cond d2) as [[|]|e1]; [same| |same].
  destruct (eval breathing_cond d2) as [[|]|e2]; [same| |same].
  destruct (eval circulation_cond d2) as [[|]|e3]; [same| |same].
  destruct (eval consciousness_cond d2) as [[|]|e4]; [same| |same].
  destruct (eval time_sensitive_cond d2) as [[|]|e5]; [same| |same].
  destruct (eval other_urgent_cond d2) as [[|]|e6]; [same| |same].
  destruct (eval yellow_vitals_cond d2) as [[|]|e7];
    destruct (eval yellow_symptoms_cond d2) as [[|]|e8]; same.
Qed.

Lemma reads_app lg1 lg2 : reads (lg1 ++ lg2) = reads lg1 ++ reads lg2.
Proof.
  induction lg1 as [|[k|l| |r] lg1 IH]; simpl; [reflexivity| |exact IH..].
  by rewrite IH.
Qed.

Lemma cond_log_keys {A : Type} (K : string -> Prop) (c : prog A) d :
  reads_only K c -> Forall K (reads (cond_log c d)).
Proof.
  intros Hc. unfold cond_log.
  induction Hc as [a|e|k cont Hk _ IH]; simpl; try constructor.
  destruct (d !! k) as [v|]; [|by repeat constructor].
  specialize (IH v). destruct (run (cont v) (entry d)) as [[lg st'] r].
  simpl. constructor; [exact Hk|exact IH].
Qed.

Lemma tier_keys_not_green t k : In k (tier_keys t) -> ~ In k green_keys.
Proof.
  destruct t; simpl; intros Hin Hg;
    repeat (destruct Hin as [<-|Hin]; [intuition discriminate|]); exact Hin.
Qed.

Lemma tier_reads_not_green t d :
  Forall (fun k => ~ In k green_keys) (reads (cond_log (tier_cond t) d)).
Proof.
  eapply Forall_impl; [apply cond_log_keys, reads_tier_cond|].
  intros k. apply tier_keys_not_green.
Qed.

(** ** Absent fields and values outside the enum *)

(** A dict read has no default: when [k] is absent, a run either raises
    [KeyError k] or never looks [k] up, and then proceeds as with [k]
    present.  True of every program, since [GetItem] is the only access. *)
Lemma run_without {A : Type} (p : prog A) (k : string) (st : store) :
  result_of (run p (without k st)) = Err (KeyError k) \/
  (log_of (run p (without k st)) = log_of (run p st) /\
   result_of (run p (without k st)) = result_of (run p st)).
Proof.
  revert st.
  induction p as [a|e|k' cont IH|cont IH|l next IH|cont IH|next IH|r next IH];
    intros st; simpl.
  - right. split; reflexivity.
  - right. split; reflexivity.
  - destruct (decide (k = k')) as [<-|Hne].
    + rewrite lookup_delete_eq. left. reflexivity.
    + rewrite lookup_delete_ne by exact Hne.
      destruct (data st !! k') as [v|]; [|right; split; reflexivity].
      destruct (IH v st) as [Hl|[Hlog Hres]]; fold (without k st) in *.
      * left. destruct (run (cont v) (without k st)) as [[lg s] x]. exact Hl.
      * right. destruct (run (cont v) (without k st)) as [[lg s] x].
        destruct (run (cont v) st) as [[lg' s'] x'].
        unfold log_of, result_of in *. simpl in *. by subst.
  - apply IH.
  - destruct (IH (mkStore (data st) l (reasons st))) as [Hl|[Hlog Hres]];
      unfold without in *; simpl in *.
    + left. destruct (run next _) as [[lg s] x]. exact Hl.
    + right. destruct (run next (mkStore (delete k (data st)) l (reasons st)))
        as [[lg s] x].
      destruct (run next (mkStore (data st) l (reasons st))) as [[lg' s'] x'].
      unfold log_of, result_of in *. simpl in *. by subst.
  - apply IH.
  - destruct (IH (mkStore (data st) (triage_level st) [])) as [Hl|[Hlog Hres]];
      unfold without in *; simpl in *.
    + left. destruct (run next _) as [[lg s] x]. exact Hl.
    + right. destruct (run next (mkStore (delete k (data st)) (triage_level st) []))
        as [[lg s] x].
      destruct (run next (mkStore (data st) (triage_level st) [])) as [[lg' s'] x'].
      unfold log_of, result_of in *. simpl in *. by subst.
  - destruct (IH (mkStore (data st) (triage_level st) (reasons st ++ [r])))
      as [Hl|[Hlog Hres]]; unfold without in *; simpl in *.
    + left. destruct (run next _) as [[lg s] x]. exact Hl.
    + right.
      destruct (run next (mkStore (delete k (data st)) (triage_level st)
                            (reasons st ++ [r]))) as [[lg s] x].
      destruct (run next (mkStore (data st) (triage_level st) (reasons st ++ [r])))
        as [[lg' s'] x'].
      unfold log_of, result_of in *. simpl in *. by subst.
Qed.

(** ** Division by zero *)

Lemma zf_por a b : reader a -> zde_free a -> zde_free b -> zde_free (a orelse b).
Proof.
  intros Hr Ha Hb d. rewrite (eval_por _ _ _ Hr).
  destruct (eval a d) as [[|]|e] eqn:E; [discriminate|apply Hb|].
  rewrite <- E. apply Ha.
Qed.

Lemma zf_pand a b : reader a -> zde_free a -> zde_free b -> zde_free (a andalso b).
Proof.
  intros Hr Ha Hb d. rewrite (eval_pand _ _ _ Hr).
  destruct (eval a d) as [[|]|e] eqn:E; [apply Hb|discriminate|].
  rewrite <- E. apply Ha.
Qed.

Lemma zf_compare op v c : py_compare op v c <> Err ZeroDivisionError.
Proof. unfold py_compare. destruct (as_number v); discriminate. Qed.

Lemma zf_flag k : zde_free (data_flag k).
Proof. intros d. rewrite eval_flag. destruct (d !! k); discriminate. Qed.
Lemma zf_lt k c : zde_free (data_lt k c).
Proof. intros d. rewrite eval_lt. destruct (d !! k); [apply zf_compare|discriminate]. Qed.
Lemma zf_gt k c : zde_free (data_gt k c).
Proof. intros d. rewrite eval_gt. destruct (d !! k); [apply zf_compare|discriminate]. Qed.
Lemma zf_le k c : zde_free (data_le k c).
Proof. intros d. rewrite eval_le. destruct (d !! k); [apply zf_compare|discriminate]. Qed.
Lemma zf_ge k c : zde_free (data_ge k c).
Proof. intros d. rewrite eval_ge. destruct (d !! k); [apply zf_compare|discriminate]. Qed.
Lemma zf_lift_gt v c : zde_free (lift (py_gt v c)).
Proof. intros d. rewrite eval_lift. apply zf_compare. Qed.

(** The guard of line 26: the division is reached with a divisor that is
    different from zero, or not a number at all. *)
Lemma truediv_zde_free a b :
  py_ne0 b = true -> py_truediv a b <> Err ZeroDivisionError.
Proof.
  intros Hne.
  destruct a as [|ba|za|qa|sa], b as [|bb|zb|qb|sb];
    cbv beta iota delta [py_truediv as_int as_float option_map int_truediv
                         float_of_int float_truediv];
    try discriminate;
    unfold py_ne0 in Hne; simpl in Hne;
    try (destruct bb; [|discriminate Hne]);
    cbn [Z.b2z];
    rewrite ?Qeq_bool_inject_Z_0 in Hne;
    try apply negb_true_iff in Hne;
    repeat first
      [ rewrite Qeq_bool_inject_Z_0
      | rewrite Hne
      | match goal with
        | |- context [if ?c then _ else _] => destruct c eqn:?
        end ];
    discriminate.
Qed.

Lemma zf_shock_index : zde_free shock_index_expr.
Proof.
  intros d. rewrite eval_shock_index.
  destruct (d !! "sbp") as [sbp|]; [|discriminate].
  destruct (py_ne0 sbp) eqn:Hne; [|discriminate].
  destruct (d !! "hr") as [hr|]; [|discriminate].
  by apply truediv_zde_free.
Qed.

Ltac zf_atoms :=
  repeat first [ apply zf_por; [auto 20 with reader | |]
               | apply zf_pand; [auto 20 with reader | |] ];
  first [ apply zf_flag | apply zf_lt | apply zf_gt | apply zf_le | apply zf_ge
        | apply zf_lift_gt ].

Lemma zf_tier_cond t : zde_free (tier_cond t).
Proof.
  destruct t; simpl.
  - unfold airway_cond. zf_atoms.
  - unfold breathing_cond. zf_atoms.
  - intros d. unfold circulation_cond. rewrite eval_bind by apply reader_shock_index.
    destruct (eval shock_index_expr d) as [si|e] eqn:E.
    + revert d E. intros d _. revert d.
      change (zde_free
        (data_lt "hr" 50 orelse data_gt "hr" 120 orelse data_lt "sbp" 90 orelse
         data_gt "sbp" 220 orelse data_lt "dbp" 60 orelse data_gt "dbp" 110 orelse
         lift (py_gt si 1) orelse data_flag "active_bleeding")).
      zf_atoms.
    + intros H. injection H as ->. exact (zf_shock_index d E).
  - intros d. unfold consciousness_cond.
    rewrite eval_bind, eval_getitem by apply reader_getitem.
    destruct (d !! "avpu"); discriminate.
  - unfold time_sensitive_cond. zf_atoms.
  - unfold other_urgent_cond. zf_atoms.
  - unfold yellow_vitals_cond. zf_atoms.
  - unfold yellow_symptoms_cond. zf_atoms.
Qed.

Ltac no_zde :=
  unfold result_of; simpl; first [ discriminate | congruence ].

(** No dict whatsoever makes the function divide by zero. *)
Lemma classify_zde_free d : classify d <> Err ZeroDivisionError.
Proof.
  pose proof (zf_tier_cond Airway d) as Z1. pose proof (zf_tier_cond Breathing d) as Z2.
  pose proof (zf_tier_cond Circulation d) as Z3.
  pose proof (zf_tier_cond Consciousness d) as Z4.
  pose proof (zf_tier_cond TimeSensitive d) as Z5.
  pose proof (zf_tier_cond OtherUrgent d) as Z6.
  pose proof (zf_tier_cond YellowVitals d) as Z7.
  pose proof (zf_tier_cond YellowSymptoms d) as Z8.
  simpl in *. unfold classify. exec_cascade.
  destruct (eval airway_cond d) as [[|]|e1]; [no_zde| |no_zde].
  destruct (eval breathing_cond d) as [[|]|e2]; [no_zde| |no_zde].
  destruct (eval circulation_cond d) as [[|]|e3]; [no_zde| |no_zde].
  destruct (eval consciousness_cond d) as [[|]|e4]; [no_zde| |no_zde].
  destruct (eval time_sensitive_cond d) as [[|]|e5]; [no_zde| |no_zde].
  destruct (eval other_urgent_cond d) as [[|]|e6]; [no_zde| |no_zde].
  destruct (eval yellow_vitals_cond d) as [[|]|e7];
    destruct (eval yellow_symptoms_cond d) as [[|]|e8]; no_zde.
Qed.

(** A divisor equal to zero is not divided by; integers that [float]
    accepts do not overflow. *)
Lemma zero_sbp_fits d sbp :
  d !! "sbp" = Some sbp -> py_ne0 sbp = false -> shock_index_overflows d = false.
Proof.
  intros Hsbp Hz. unfold shock_index_overflows. rewrite Hsbp, Hz.
  by destruct (d !! "hr").
Qed.

Lemma float_overflow_gt_1 : (1 < float_overflow)%Z.
Proof. reflexivity. Qed.

Lemma int_truediv_fits x y :
  (Z.abs x <? float_overflow)%Z = true -> int_truediv x y <> Err OverflowError.
Proof.
  intros Hx. unfold int_truediv.
  destruct (y =? 0)%Z eqn:Hy; [discriminate|].
  destruct (float_overflow * Z.abs y <=? Z.abs x)%Z eqn:Hq; [|discriminate].
  exfalso. apply Z.eqb_neq in Hy. apply Z.ltb_lt in Hx. apply Z.leb_le in Hq.
  pose proof float_overflow_gt_1 as Hpos.
  assert (Hy' : (1 <= Z.abs y)%Z) by lia.
  revert Hx Hq Hpos. generalize float_overflow. intros T Hx Hq Hpos. nia.
Qed.

Lemma float_range_fits d :
  in_float_range d "hr" = true -> in_float_range d "sbp" = true ->
  shock_index_overflows d = false.
Proof.
  unfold in_float_range, shock_index_overflows. intros Hh Hs.
  destruct (d !! "sbp") as [sbp|]; [|reflexivity].
  destruct (d !! "hr") as [hr|]; [|reflexivity].
  destruct (py_ne0 sbp); [simpl|reflexivity].
  destruct (py_truediv hr sbp) as [v|[k| | |]] eqn:E; try reflexivity.
  exfalso. revert E.
  destruct hr as [|bh|zh|qh|sh], sbp as [|bs|zs|qs|ss];
    cbv beta iota delta [py_truediv as_int as_float option_map float_of_int
                         float_truediv];
    try discriminate;
    try (apply int_truediv_fits; first [exact Hh | by destruct bh]);
    rewrite ?Hh, ?Hs;
    try (destruct bh); try (destruct bs); cbn [Z.b2z];
    repeat match goal with
           | |- context [if ?c then _ else _] => destruct c eqn:?
           end;
    discriminate.
Qed.

(** On a well-formed snapshot the function returns, unless the division
    overflows. *)
Lemma wf_returns d :
  well_formed d = true -> shock_index_overflows d = false ->
  exists l rs, classify d = Ok (l, rs).
Proof.
  intros Hwf Hfit. wf_evals Hwf Hfit. unfold classify. exec_cascade. rewrite_evals.
  destruct b1; [simpl; eauto|]. destruct b2; [simpl; eauto|].
  destruct b3; [simpl; eauto|]. destruct b4; [simpl; eauto|].
  destruct b5; [simpl; eauto|]. destruct b6; [simpl; eauto|].
  destruct b7, b8; simpl; eauto.
Qed.

(** ** Band boundaries *)

Lemma Qlt_bool_proper_r c x q : x == q -> Qlt_bool c x = Qlt_bool c q.
Proof. intros H. unfold Qlt_bool. by rewrite H. Qed.
Lemma Qlt_bool_proper_l c x q : x == q -> Qlt_bool x c = Qlt_bool q c.
Proof. intros H. unfold Qlt_bool. by rewrite H. Qed.
Lemma Qle_bool_proper_r c x q : x == q -> Qle_bool c x = Qle_bool c q.
Proof. intros H. by rewrite H. Qed.
Lemma Qle_bool_proper_l c x q : x == q -> Qle_bool x c = Qle_bool q c.
Proof. intros H. by rewrite H. Qed.

Lemma eval_gt_field d k q c : field_is d k q -> eval (data_gt k c) d = Ok (Qlt_bool c q).
Proof.
  intros (v & x & Hv & Hx & Hq). rewrite eval_gt, Hv. unfold py_gt, py_compare.
  by rewrite Hx, (Qlt_bool_proper_r _ _ _ Hq).
Qed.
Lemma eval_lt_field d k q c : field_is d k q -> eval (data_lt k c) d = Ok (Qlt_bool q c).
Proof.
  intros (v & x & Hv & Hx & Hq). rewrite eval_lt, Hv. unfold py_lt, py_compare.
  by rewrite Hx, (Qlt_bool_proper_l _ _ _ Hq).
Qed.
Lemma eval_ge_field d k q c : field_is d k q -> eval (data_ge k c) d = Ok (Qle_bool c q).
Proof.
  intros (v & x & Hv & Hx & Hq). rewrite eval_ge, Hv. unfold py_ge, py_compare.
  by rewrite Hx, (Qle_bool_proper_r _ _ _ Hq).
Qed.
Lemma eval_le_field d k q c : field_is d k q -> eval (data_le k c) d = Ok (Qle_bool q c).
Proof.
  intros (v & x & Hv & Hx & Hq). rewrite eval_le, Hv. unfold py_le, py_compare.
  by rewrite Hx, (Qle_bool_proper_l _ _ _ Hq).
Qed.

Lemma eval_por_true a b d : reader a -> eval a d = Ok true -> eval (a orelse b) d = Ok true.
Proof. intros Ha H. by rewrite (eval_por _ _ _ Ha), H. Qed.

Lemma eval_por_skip a b d :
  reader a -> eval a d = Ok false -> eval (a orelse b) d = eval b d.
Proof. intros Ha H. by rewrite (eval_por _ _ _ Ha), H. Qed.

Lemma eval_por_later a b d :
  reader a -> total d a -> eval b d = Ok true -> eval (a orelse b) d = Ok true.
Proof. intros Ha [x Hx] H. rewrite (eval_por _ _ _ Ha), Hx. by destruct x. Qed.

Lemma eval_por_drop a b d :
  reader a -> eval b d = Ok false -> eval (a orelse b) d = eval a d.
Proof.
  intros Ha H. rewrite (eval_por _ _ _ Ha). by destruct (eval a d) as [[|]|e].
Qed.

Lemma eval_por_congr a b b' d :
  reader a -> eval b d = eval b' d -> eval (a orelse b) d = eval (a orelse b') d.
Proof. intros Ha H. by rewrite !(eval_por _ _ _ Ha), H. Qed.

(** The airway and the breathing tier return before line 26. *)
Lemma early_red d :
  well_formed d = true ->
  fires airway_cond d = true \/ fires breathing_cond d = true ->
  exists r, classify d = Ok ("RED", [r]).
Proof.
  intros Hwf Hf.
  destruct (total_airway d Hwf) as [b1 E1]. destruct (total_breathing d Hwf) as [b2 E2].
  unfold classify. exec_cascade. rewrite_evals.
  destruct b1; [simpl; eauto|]. rewrite_evals. destruct b2; [simpl; eauto|].
  exfalso. unfold fires in Hf. rewrite E1, E2 in Hf. by destruct Hf.
Qed.

(** A RED condition that fires on a well-formed snapshot makes it RED. *)
Lemma fires_red d t :
  well_formed d = true -> shock_index_overflows d = false ->
  In t red_tiers -> fires (tier_cond t) d = true ->
  exists r, classify d = Ok ("RED", [r]).
Proof.
  intros Hwf Hfit Hin Hf. wf_evals Hwf Hfit. unfold classify. exec_cascade. rewrite_evals.
  destruct b1; [simpl; eauto|]. destruct b2; [simpl; eauto|].
  destruct b3; [simpl; eauto|]. destruct b4; [simpl; eauto|].
  destruct b5; [simpl; eauto|]. destruct b6; [simpl; eauto|].
  exfalso. unfold fires in Hf.
  simpl in Hin.
  repeat (destruct Hin as [<-|Hin];
          [simpl in Hf;
           match goal with
           | E : eval ?c _ = Ok false |- _ => rewrite E in Hf; discriminate Hf
           end|]).
  exact Hin.
Qed.

(** * The claims *)

(** C1 (the code departs from the claim).  On the well-formed snapshot with
    respiratory rate 21, pain score 5 and no RED criterion, both yellow
    conditions fire, yet the function returns YELLOW with one reason only,
    the yellow-vitals one: the branch of line 77 that should add the
    semi-urgent reason ("If already yellow from vitals, add this reason")
    requires [reasons] to be empty, which it never is at that point. *)
Theorem yellow_accumulation_drops_reason :
  well_formed yellow_both_snapshot = true /\
  no_red yellow_both_snapshot = true /\
  fires yellow_vitals_cond yellow_both_snapshot = true /\
  fires yellow_symptoms_cond yellow_both_snapshot = true /\
  classify yellow_both_snapshot = Ok ("YELLOW", [yellow_vitals_reason]).
Proof. repeat split; vm_compute; reflexivity. Qed.

(** On every well-formed snapshot on which the division of line 26 has a
    value, no RED condition fires and both yellow conditions fire, the
    result is YELLOW with the yellow-vitals reason alone: the test of line 77
    needs [reasons] empty, and the yellow-vitals tier has just appended to
    it. *)
Lemma yellow_both_single_reason d :
  well_formed d = true ->
  shock_index_overflows d = false ->
  no_red d = true ->
  fires yellow_vitals_cond d = true ->
  fires yellow_symptoms_cond d = true ->
  classify d = Ok ("YELLOW", [yellow_vitals_reason]) /\
  levels (log_of (call d)) = ["GREEN"; "YELLOW"].
Proof.
  intros Hwf Hfit Hno Hv Hs. wf_evals Hwf Hfit.
  unfold no_red, fires in *. simpl in Hno. rewrite_evals.
  rewrite E1, E2, E3, E4, E5, E6 in Hno. rewrite E7 in Hv. rewrite E8 in Hs.
  destruct b1, b2, b3, b4, b5, b6, b7, b8; try discriminate.
  unfold classify. exec_cascade. rewrite_evals.
  split; [reflexivity|].
  unfold log_of. simpl. rewrite !levels_app, !levels_cond_log by auto with reader.
  reflexivity.
Qed.

(** C2 as stated fails.  On the well-formed snapshot with heart rate 10^400
    and consciousness V the rule of the consciousness tier fires, yet the
    call returns no verdict: the division of line 26 raises OverflowError,
    and the consciousness value is never read. *)
Lemma red_rule_without_verdict :
  well_formed huge_hr_verbal_snapshot = true /\
  fires consciousness_cond huge_hr_verbal_snapshot = true /\
  classify huge_hr_verbal_snapshot = Err OverflowError /\
  ~ In "avpu" (reads (log_of (call huge_hr_verbal_snapshot))).
Proof.
  split; [|split; [|split]]; try (vm_compute; reflexivity).
  vm_compute. intuition discriminate.
Qed.

(** C2, amended.  On a well-formed snapshot on which the division of line
    26 does not overflow and some RED condition fires, the function returns
    RED with exactly one reason, that of the first RED tier (in source
    order) whose condition fires; the run consists of the two initial
    assignments, the reads of the conditions up to that tier and the two
    writes of that tier, and of nothing after them. *)
Theorem red_short_circuit d :
  well_formed d = true ->
  shock_index_overflows d = false ->
  (exists t, In t red_tiers /\ fires (tier_cond t) d = true) ->
  exists i t,
    first_red d = Some (i, t) /\
    (forall j t', (j < i)%nat -> red_tiers !! j = Some t' ->
                  fires (tier_cond t') d = false) /\
    classify d = Ok ("RED", [tier_reason t]) /\
    log_of (call d) =
      [EvNewReasons; EvSetLevel "GREEN"] ++
      concat (map (fun t' => cond_log (tier_cond t') d) (take (S i) red_tiers)) ++
      [EvAppend (tier_reason t); EvSetLevel "RED"].
Proof.
  intros Hwf Hfit (t0 & Hin & Hfire). wf_evals Hwf Hfit.
  assert (Hfind : exists i t, first_red d = Some (i, t)).
  { unfold first_red.
    destruct (list_find (fun t => fires (tier_cond t) d = true) red_tiers)
      as [[i t]|] eqn:Hf; [eauto|].
    rewrite list_find_None, Forall_forall in Hf.
    exfalso. apply (Hf t0); [by apply list_elem_of_In|exact Hfire]. }
  destruct Hfind as (i & t & Hfind). exists i, t.
  split; [exact Hfind|].
  unfold first_red in Hfind. apply list_find_Some in Hfind.
  destruct Hfind as (Hi & Ht & Hbefore).
  split.
  { intros j t' Hj Hj'. specialize (Hbefore j t' Hj' Hj).
    destruct (fires (tier_cond t') d); [by destruct Hbefore|reflexivity]. }
  assert (Hfalse : forall j t' b, (j < i)%nat -> red_tiers !! j = Some t' ->
                     eval (tier_cond t') d = Ok b -> b = false).
  { intros j t' b Hj Hj' Hb. specialize (Hbefore j t' Hj' Hj).
    unfold fires in Hbefore. rewrite Hb in Hbefore.
    destruct b; [by destruct Hbefore|reflexivity]. }
  assert (Htrue : forall b, eval (tier_cond t) d = Ok b -> b = true).
  { intros b Hb. unfold fires in Ht. rewrite Hb in Ht. by destruct b. }
  clear Hbefore Ht Hin Hfire.
  unfold classify. exec_cascade.
  assert (Hi' : (i < 6)%nat) by (apply lookup_lt_Some in Hi; exact Hi).
  do 6 (destruct i as [|i]; [
    simpl in Hi; injection Hi as <-; simpl in Htrue;
    try (pose proof (Hfalse 0%nat Airway b1 ltac:(lia) eq_refl E1); subst b1);
    try (pose proof (Hfalse 1%nat Breathing b2 ltac:(lia) eq_refl E2); subst b2);
    try (pose proof (Hfalse 2%nat Circulation b3 ltac:(lia) eq_refl E3); subst b3);
    try (pose proof (Hfalse 3%nat Consciousness b4 ltac:(lia) eq_refl E4); subst b4);
    try (pose proof (Hfalse 4%nat TimeSensitive b5 ltac:(lia) eq_refl E5); subst b5);
    repeat match goal with
           | E : eval ?c d = Ok ?b |- _ =>
               is_var b; pose proof (Htrue b E); subst b
           end;
    rewrite_evals; simpl; rewrite <- ?app_assoc, ?app_nil_r; split; reflexivity | ]).
  lia.
Qed.

Lemma red_short_circuit_witness :
  exists i t,
    first_red (<["rr" := VInt 23]> normal_snapshot) = Some (i, t) /\
    (forall j t', (j < i)%nat -> red_tiers !! j = Some t' ->
                  fires (tier_cond t') (<["rr" := VInt 23]> normal_snapshot) = false) /\
    classify (<["rr" := VInt 23]> normal_snapshot) = Ok ("RED", [tier_reason t]) /\
    log_of (call (<["rr" := VInt 23]> normal_snapshot)) =
      [EvNewReasons; EvSetLevel "GREEN"] ++
      concat (map (fun t' => cond_log (tier_cond t') (<["rr" := VInt 23]> normal_snapshot))
                (take (S i) red_tiers)) ++
      [EvAppend (tier_reason t); EvSetLevel "RED"].
Proof.
  apply (red_short_circuit (<["rr" := VInt 23]> normal_snapshot)).
  - vm_compute. reflexivity.
  - vm_compute. reflexivity.
  - exists Breathing. split; [simpl; tauto | vm_compute; reflexivity].
Defined.

Ltac answer :=
  simpl; eexists _, _; split; [reflexivity|];
  split; [auto|]; split; [discriminate|];
  intros Hall;
  repeat match goal with
         | N : _ -> _ = false |- _ => specialize (N Hall); try discriminate N
         end;
  auto.

(** C3 as stated fails.  The snapshot with the form's initial values and
    heart rate 10^400 is well formed, and the call raises OverflowError at
    line 26 instead of returning a verdict. *)
Lemma huge_heart_rate_raises :
  well_formed huge_hr_snapshot = true /\
  shock_index_overflows huge_hr_snapshot = true /\
  classify huge_hr_snapshot = Err OverflowError.
Proof. repeat split; vm_compute; reflexivity. Qed.

(** C3, amended.  On every well-formed snapshot on which the division of
    line 26 does not overflow the function returns a level among RED, YELLOW
    and GREEN together with a non-empty list of reasons; when no RED and no
    YELLOW condition fires the result is GREEN with the catch-all reason. *)
Theorem classify_total d :
  well_formed d = true ->
  shock_index_overflows d = false ->
  exists l rs,
    classify d = Ok (l, rs) /\
    (l = "RED" \/ l = "YELLOW" \/ l = "GREEN") /\
    rs <> [] /\
    ((forall t, fires (tier_cond t) d = false) -> l = "GREEN" /\ rs = [default_reason]).
Proof.
  intros Hwf Hfit. wf_evals Hwf Hfit. unfold classify. exec_cascade. rewrite_evals.
  assert (Hno : forall t b, eval (tier_cond t) d = Ok b ->
                  (forall t', fires (tier_cond t') d = false) -> b = false).
  { intros t b Hb Hall. specialize (Hall t). unfold fires in Hall. rewrite Hb in Hall.
    destruct b; [discriminate|reflexivity]. }
  pose proof (Hno Airway _ E1) as N1. pose proof (Hno Breathing _ E2) as N2.
  pose proof (Hno Circulation _ E3) as N3. pose proof (Hno Consciousness _ E4) as N4.
  pose proof (Hno TimeSensitive _ E5) as N5. pose proof (Hno OtherUrgent _ E6) as N6.
  pose proof (Hno YellowVitals _ E7) as N7. pose proof (Hno YellowSymptoms _ E8) as N8.
  clear Hno.
  destruct b1; [answer|]. destruct b2; [answer|]. destruct b3; [answer|].
  destruct b4; [answer|]. destruct b5; [answer|]. destruct b6; [answer|].
  destruct b7, b8; answer.
Qed.

Lemma classify_total_witness :
  exists l rs,
    classify normal_snapshot = Ok (l, rs) /\
    (l = "RED" \/ l = "YELLOW" \/ l = "GREEN") /\
    rs <> [] /\
    ((forall t, fires (tier_cond t) normal_snapshot = false) ->
     l = "GREEN" /\ rs = [default_reason]).
Proof. apply (classify_total normal_snapshot); vm_compute; reflexivity. Defined.

(** C4. On a well-formed snapshot whose systolic pressure is zero, whatever
    the heart rate, the shock index is the integer 0, so the clause
    [shock_index > 1.0] is false; the call raises no ZeroDivisionError and
    returns a verdict. *)
Theorem shock_index_zero_guard (d : gmap string pyval) (sbp : pyval) :
  well_formed d = true ->
  d !! "sbp" = Some sbp ->
  py_ne0 sbp = false ->
  eval shock_index_expr d = Ok (VInt 0) /\
  eval shock_index_clause d = Ok false /\
  classify d <> Err ZeroDivisionError /\
  exists l rs, classify d = Ok (l, rs).
Proof.
  intros Hwf Hsbp Hz.
  assert (Hsi : eval shock_index_expr d = Ok (VInt 0)).
  { unfold shock_index_expr.
    rewrite eval_bind, eval_getitem, Hsbp, Hz by apply reader_getitem. reflexivity. }
  split; [exact Hsi|]. split.
  - unfold shock_index_clause. rewrite eval_bind, Hsi by apply reader_shock_index.
    reflexivity.
  - split; [apply classify_zde_free|].
    apply wf_returns; [exact Hwf|exact (zero_sbp_fits d sbp Hsbp Hz)].
Qed.

Lemma shock_index_zero_guard_witness :
  eval shock_index_expr sbp_zero_snapshot = Ok (VInt 0) /\
  eval shock_index_clause sbp_zero_snapshot = Ok false /\
  classify sbp_zero_snapshot <> Err ZeroDivisionError /\
  exists l rs, classify sbp_zero_snapshot = Ok (l, rs).
Proof.
  apply (shock_index_zero_guard sbp_zero_snapshot (VInt 0));
    [vm_compute; reflexivity | reflexivity | reflexivity].
Defined.

(** With the systolic pressure at zero the circulation tier still fires,
    through the operand [sbp < 90]. *)
Example sbp_zero_verdict :
  classify sbp_zero_snapshot = Ok ("RED", [circulation_reason]).
Proof. vm_compute. reflexivity. Qed.

(** C5 as stated fails in its last part.  On the well-formed snapshot with
    temperature 40.1 and heart rate 10^400 the time-sensitive tier is not
    reached: the call raises OverflowError at line 26, so the result is not
    RED, and the temperature is never read. *)
Lemma temperature_401_without_verdict :
  well_formed huge_hr_temp401_snapshot = true /\
  field_is huge_hr_temp401_snapshot "temp" (401 # 10) /\
  classify huge_hr_temp401_snapshot = Err OverflowError /\
  ~ In "temp" (reads (log_of (call huge_hr_temp401_snapshot))).
Proof.
  split; [vm_compute; reflexivity|]. split.
  - exists (VFloat (401 # 10)), (401 # 10)%Q. repeat split; reflexivity.
  - split; [vm_compute; reflexivity|]. vm_compute. intuition discriminate.
Qed.

(** C5, amended.  On a well-formed snapshot:
    - respiratory rate 22: the operands [rr > 22] and [rr < 10] are false, so
      the breathing test is decided by its other operands; the band
      [20 <= rr <= 22] holds and the yellow-vitals condition fires;
    - respiratory rate 23: the breathing condition fires and the result is RED;
    - temperature 40.0: the operands [temp > 40.0] and [temp < 35.0] are
      false, so the time-sensitive test is decided by its other operands; the
      band [38.0 <= temp <= 40.0] holds and the yellow-vitals condition fires;
    - temperature 40.1: the time-sensitive condition is true, and the
      result is RED when the division of line 26 does not overflow. *)
Theorem boundary_exactness (d : gmap string pyval) :
  well_formed d = true ->
  (field_is d "rr" 22 ->
     eval (data_gt "rr" 22 orelse data_lt "rr" 10) d = Ok false /\
     eval breathing_cond d = eval breathing_cond_without_rr d /\
     eval (data_ge "rr" 20 andalso data_le "rr" 22) d = Ok true /\
     fires yellow_vitals_cond d = true) /\
  (field_is d "rr" 23 ->
     fires breathing_cond d = true /\
     exists r, classify d = Ok ("RED", [r])) /\
  (field_is d "temp" 40 ->
     eval (data_gt "temp" 40 orelse data_lt "temp" 35) d = Ok false /\
     eval time_sensitive_cond d = eval time_sensitive_cond_without_temp d /\
     eval (data_ge "temp" 38 andalso data_le "temp" 40) d = Ok true /\
     fires yellow_vitals_cond d = true) /\
  (field_is d "temp" (401 # 10) ->
     fires time_sensitive_cond d = true /\
     (shock_index_overflows d = false -> exists r, classify d = Ok ("RED", [r]))).
Proof.
  intros Hwf. split; [|split; [|split]]; intros H.
  - (* respiratory rate 22 *)
    split; [|split; [|split]].
    + rewrite eval_por, (eval_gt_field _ _ _ _ H), (eval_lt_field _ _ _ _ H)
        by auto with reader. reflexivity.
    + unfold breathing_cond, breathing_cond_without_rr.
      do 2 (apply eval_por_congr; [auto with reader|]).
      rewrite eval_por_skip; [|auto with reader|by rewrite (eval_gt_field _ _ _ _ H)].
      rewrite eval_por_skip; [|auto with reader|by rewrite (eval_lt_field _ _ _ _ H)].
      reflexivity.
    + rewrite eval_pand, (eval_ge_field _ _ _ _ H), (eval_le_field _ _ _ _ H)
        by auto with reader. reflexivity.
    + unfold fires, yellow_vitals_cond.
      rewrite eval_por, eval_pand, (eval_ge_field _ _ _ _ H), (eval_le_field _ _ _ _ H)
        by auto with reader. reflexivity.
  - (* respiratory rate 23 *)
    assert (Hb : fires breathing_cond d = true).
    { unfold fires, breathing_cond.
      do 2 (rewrite eval_por_later; [reflexivity|auto with reader|total_atoms Hwf|]).
      apply eval_por_true; [auto with reader|].
      by rewrite (eval_gt_field _ _ _ _ H). }
    split; [exact Hb|].
    apply (early_red d Hwf). right. exact Hb.
  - (* temperature 40.0 *)
    split; [|split; [|split]].
    + rewrite eval_por, (eval_gt_field _ _ _ _ H), (eval_lt_field _ _ _ _ H)
        by auto with reader. reflexivity.
    + unfold time_sensitive_cond, time_sensitive_cond_without_temp.
      do 9 (apply eval_por_congr; [auto with reader|]).
      apply eval_por_drop; [auto with reader|].
      rewrite eval_por, (eval_gt_field _ _ _ _ H), (eval_lt_field _ _ _ _ H)
        by auto with reader. reflexivity.
    + rewrite eval_pand, (eval_ge_field _ _ _ _ H), (eval_le_field _ _ _ _ H)
        by auto with reader. reflexivity.
    + unfold fires, yellow_vitals_cond.
      do 4 (rewrite eval_por_later; [reflexivity|auto with reader|total_atoms Hwf|]).
      rewrite eval_pand, (eval_ge_field _ _ _ _ H), (eval_le_field _ _ _ _ H)
        by auto with reader. reflexivity.
  - (* temperature 40.1 *)
    assert (Ht : fires time_sensitive_cond d = true).
    { unfold fires, time_sensitive_cond.
      do 10 (rewrite eval_por_later;
             [reflexivity|auto 20 with reader|total_atoms Hwf|]).
      apply eval_por_true; [auto with reader|].
      by rewrite (eval_gt_field _ _ _ _ H). }
    split; [exact Ht|]. intros Hfit.
    apply (fires_red d TimeSensitive Hwf Hfit); [simpl; tauto|exact Ht].
Qed.

Lemma boundary_exactness_witness :
  (eval (data_gt "rr" 22 orelse data_lt "rr" 10) rr22_snapshot = Ok false /\
   eval breathing_cond rr22_snapshot = eval breathing_cond_without_rr rr22_snapshot /\
   eval (data_ge "rr" 20 andalso data_le "rr" 22) rr22_snapshot = Ok true /\
   fires yellow_vitals_cond rr22_snapshot = true) /\
  (fires breathing_cond rr23_snapshot = true /\
   exists r, classify rr23_snapshot = Ok ("RED", [r])) /\
  (eval (data_gt "temp" 40 orelse data_lt "temp" 35) temp40_snapshot = Ok false /\
   eval time_sensitive_cond temp40_snapshot =
     eval time_sensitive_cond_without_temp temp40_snapshot /\
   eval (data_ge "temp" 38 andalso data_le "temp" 40) temp40_snapshot = Ok true /\
   fires yellow_vitals_cond temp40_snapshot = true) /\
  (fires time_sensitive_cond temp401_snapshot = true /\
   exists r, classify temp401_snapshot = Ok ("RED", [r])).
Proof.
  split; [|split; [|split]].
  - apply (proj1 (boundary_exactness rr22_snapshot ltac:(vm_compute; reflexivity))).
    exists (VInt 22), (inject_Z 22). repeat split; reflexivity.
  - apply (proj1 (proj2 (boundary_exactness rr23_snapshot ltac:(vm_compute; reflexivity)))).
    exists (VInt 23), (inject_Z 23). repeat split; reflexivity.
  - apply (proj1 (proj2 (proj2
      (boundary_exactness temp40_snapshot ltac:(vm_compute; reflexivity))))).
    exists (VFloat 40), 40%Q. repeat split; reflexivity.
  - destruct (proj2 (proj2 (proj2
      (boundary_exactness temp401_snapshot ltac:(vm_compute; reflexivity))))
      (ex_intro _ (VFloat (401 # 10))
         (ex_intro _ (401 # 10)%Q (conj eq_refl (conj eq_refl (Qeq_refl _))))))
      as [Hf Hc].
    split; [exact Hf|apply Hc; vm_compute; reflexivity].
Defined.

(** The four boundary snapshots, classified. *)
Example boundary_verdicts :
  classify rr22_snapshot = Ok ("YELLOW", [yellow_vitals_reason]) /\
  classify rr23_snapshot = Ok ("RED", [breathing_reason]) /\
  classify temp40_snapshot = Ok ("YELLOW", [yellow_vitals_reason]) /\
  classify temp401_snapshot = Ok ("RED", [time_sensitive_reason]).
Proof. repeat split; vm_compute; reflexivity. Qed.

Ltac leaf :=
  unfold monotone_run, log_of, result_of; simpl;
  rewrite ?levels_app, ?levels_cond_log by auto with reader; simpl;
  split; [repeat constructor; unfold is_level; auto|];
  split; [repeat constructor; unfold level_le; simpl; lia|];
  intros l rs Hr; try discriminate Hr; injection Hr as <- <-; reflexivity.

(** C6. In every evaluation (of any dict, also one that ends in an
    exception) the values assigned to [triage_level] never decrease in the
    order GREEN < YELLOW < RED, and a returned level is the last assigned. *)
Theorem level_never_decreases d : monotone_run (call d).
Proof.
  exec_cascade.
  destruct (eval airway_cond d) as [[|]|e1]; [leaf| |leaf].
  destruct (eval breathing_cond d) as [[|]|e2]; [leaf| |leaf].
  destruct (eval circulation_cond d) as [[|]|e3]; [leaf| |leaf].
  destruct (eval consciousness_cond d) as [[|]|e4]; [leaf| |leaf].
  destruct (eval time_sensitive_cond d) as [[|]|e5]; [leaf| |leaf].
  destruct (eval other_urgent_cond d) as [[|]|e6]; [leaf| |leaf].
  destruct (eval yellow_vitals_cond d) as [[|]|e7];
    destruct (eval yellow_symptoms_cond d) as [[|]|e8]; leaf.
Qed.

(** C7 as stated fails.  A consciousness value outside the enum is taken
    for Alert and the snapshot is classified GREEN; a snapshot lacking a
    red-flag field is classified when the cascade returns before the read of
    that field. *)
Lemma invalid_input_accepted :
  (avpu_outside_enum bad_avpu_snapshot = true /\
   classify bad_avpu_snapshot = Ok ("GREEN", [default_reason])) /\
  (has_missing_field missing_flag_snapshot = true /\
   classify missing_flag_snapshot = Ok ("RED", [airway_reason])).
Proof. repeat split; vm_compute; reflexivity. Qed.

(** C7, amended.  The function validates nothing and has no InvalidInput
    error.  Any consciousness value that is not one of the strings V, P, U
    (so also a value outside the enum) is handled exactly like A.  An
    absent field is never given a default: with field [k] absent the call
    either raises [KeyError k], or never reads [k] and runs as with [k]
    present. *)
Theorem no_input_validation (d : gmap string pyval) (k : string) (v : pyval) :
  py_in_VPU v = false ->
  (classify (<["avpu" := v]> d) = classify (<["avpu" := VStr "A"]> d) /\
   log_of (call (<["avpu" := v]> d)) = log_of (call (<["avpu" := VStr "A"]> d))) /\
  (classify (delete k d) = Err (KeyError k) \/
   (classify (delete k d) = classify d /\
    log_of (call (delete k d)) = log_of (call d))).
Proof.
  intros Hv. split.
  - destruct (call_congruence (<["avpu" := v]> d) (<["avpu" := VStr "A"]> d))
      as [Hlog Hres]; [|split; assumption].
    intros t.
    assert (Hother : ~ In "avpu" (tier_keys t) ->
              cond_log (tier_cond t) (<["avpu" := v]> d) =
                cond_log (tier_cond t) (<["avpu" := VStr "A"]> d) /\
              eval (tier_cond t) (<["avpu" := v]> d) =
                eval (tier_cond t) (<["avpu" := VStr "A"]> d)).
    { intros Hnot. apply (reads_only_frame _ _ _ _ (reads_tier_cond t)).
      intros k' Hk'. rewrite !lookup_insert_ne; [reflexivity|..]; by intros <-. }
    destruct t; try (apply Hother; simpl; intuition discriminate).
    unfold cond_log, eval. simpl. rewrite !lookup_insert_eq. simpl.
    rewrite Hv. split; reflexivity.
  - destruct (run_without classify_patient_aiims_atp k (entry d)) as [Hl|[Hlog Hres]].
    + left. exact Hl.
    + right. split; [exact Hres|exact Hlog].
Qed.

Lemma no_input_validation_witness :
  (classify (<["avpu" := VStr "X"]> normal_snapshot) =
     classify (<["avpu" := VStr "A"]> normal_snapshot) /\
   log_of (call (<["avpu" := VStr "X"]> normal_snapshot)) =
     log_of (call (<["avpu" := VStr "A"]> normal_snapshot))) /\
  (classify (delete "stridor" normal_snapshot) = Err (KeyError "stridor") \/
   (classify (delete "stridor" normal_snapshot) = classify normal_snapshot /\
    log_of (call (delete "stridor" normal_snapshot)) = log_of (call normal_snapshot))).
Proof.
  apply (no_input_validation normal_snapshot "stridor" (VStr "X")). reflexivity.
Defined.

(** C8. The snapshot with SpO2 98, HR 80, SBP 120, DBP 80, RR 16,
    temperature 37.0, pain 0, consciousness Alert and every flag false is
    classified GREEN with the single reason "No specific red or yellow
    criteria met. Appears non-urgent.". *)
Theorem default_green :
  well_formed normal_snapshot = true /\
  classify normal_snapshot =
    Ok ("GREEN", ["No specific red or yellow criteria met. Appears non-urgent."]).
Proof. split; vm_compute; reflexivity. Qed.

(** C9. A call does not depend on what the locals held before it, leaves the
    dict as it was, and a second call on the store the first one left gives
    the same result through the same operations. *)
Theorem classify_stateless (st : store) :
  let o1 := run classify_patient_aiims_atp st in
  let o2 := run classify_patient_aiims_atp (store_of o1) in
  o1 = call (data st) /\
  data (store_of o1) = data st /\
  result_of o2 = result_of o1 /\
  log_of o2 = log_of o1.
Proof.
  assert (Hcall : forall s, run classify_patient_aiims_atp s = call (data s)).
  { intros s. unfold call, classify_patient_aiims_atp. by rewrite !run_init. }
  cbv zeta. rewrite (Hcall (store_of _)), run_data, (Hcall st).
  repeat split.
Qed.

Ltac unread :=
  unfold log_of; simpl; rewrite ?reads_app; simpl; rewrite ?app_nil_r;
  repeat (apply Forall_app; split); assumption.

(** C10. Two dicts that agree on every key other than [minor_cut_abrasion],
    [mild_cold_symptoms] and [medication_refill_request] get the same
    result through the same sequence of operations, and no run reads one of
    these three keys. *)
Theorem green_flags_ignored (d1 d2 : gmap string pyval) :
  (forall k, ~ In k green_keys -> d1 !! k = d2 !! k) ->
  classify d1 = classify d2 /\
  log_of (call d1) = log_of (call d2) /\
  Forall (fun k => ~ In k green_keys) (reads (log_of (call d1))).
Proof.
  intros Hagree.
  destruct (call_congruence d1 d2) as [Hlog Hres].
  { intros t. apply (reads_only_frame _ _ _ _ (reads_tier_cond t)).
    intros k Hk. apply Hagree. by apply (tier_keys_not_green t). }
  split; [exact Hres|]. split; [exact Hlog|]. clear Hagree Hlog Hres d2.
  pose proof (tier_reads_not_green Airway d1) as R1.
  pose proof (tier_reads_not_green Breathing d1) as R2.
  pose proof (tier_reads_not_green Circulation d1) as R3.
  pose proof (tier_reads_not_green Consciousness d1) as R4.
  pose proof (tier_reads_not_green TimeSensitive d1) as R5.
  pose proof (tier_reads_not_green OtherUrgent d1) as R6.
  pose proof (tier_reads_not_green YellowVitals d1) as R7.
  pose proof (tier_reads_not_green YellowSymptoms d1) as R8.
  simpl in *. exec_cascade.
  destruct (eval airway_cond d1) as [[|]|e1]; [unread| |unread].
  destruct (eval breathing_cond d1) as [[|]|e2]; [unread| |unread].
  destruct (eval circulation_cond d1) as [[|]|e3]; [unread| |unread].
  destruct (eval consciousness_cond d1) as [[|]|e4]; [unread| |unread].
  destruct (eval time_sensitive_cond d1) as [[|]|e5]; [unread| |unread].
  destruct (eval other_urgent_cond d1) as [[|]|e6]; [unread| |unread].
  destruct (eval yellow_vitals_cond d1) as [[|]|e7];
    destruct (eval yellow_symptoms_cond d1) as [[|]|e8]; unread.
Qed.

Lemma green_flags_ignored_witness :
  classify normal_snapshot = classify green_ticked_snapshot /\
  log_of (call normal_snapshot) = log_of (call green_ticked_snapshot) /\
  Forall (fun k => ~ In k green_keys) (reads (log_of (call normal_snapshot))).
Proof.
  apply (green_flags_ignored normal_snapshot green_ticked_snapshot).
  intros k Hk. unfold green_ticked_snapshot. simpl in Hk.
  rewrite !lookup_insert_ne; [reflexivity|..]; intros <-; apply Hk; tauto.
Defined.

(** * Further properties *)

(** ** Conditions on well-formed snapshots as boolean formulas *)

Lemma eval_por_ok a b d x y :
  reader a -> eval a d = Ok x -> eval b d = Ok y -> eval (a orelse b) d = Ok (x || y).
Proof. intros Ha Hx Hy. rewrite (eval_por _ _ _ Ha), Hx. by destruct x. Qed.

Lemma eval_pand_ok a b d x y :
  reader a -> eval a d = Ok x -> eval b d = Ok y -> eval (a andalso b) d = Ok (x && y).
Proof. intros Ha Hx Hy. rewrite (eval_pand _ _ _ Ha), Hx. by destruct x. Qed.

Lemma eval_flag_wf d k :
  well_formed d = true -> In k flag_keys -> eval (data_flag k) d = Ok (flag_of d k).
Proof.
  intros Hwf Hin. destruct (wf_flag d k Hwf Hin) as [b Hb].
  unfold flag_of. by rewrite eval_flag, Hb.
Qed.

Lemma eval_lt_wf d k c :
  well_formed d = true -> In k vital_keys ->
  eval (data_lt k c) d = Ok (Qlt_bool (num_of d k) c).
Proof.
  intros Hwf Hin. destruct (wf_vital d k Hwf Hin) as (v & q & Hv & Hq).
  unfold num_of. rewrite eval_lt, Hv, Hq. unfold py_lt, py_compare. by rewrite Hq.
Qed.

Lemma eval_gt_wf d k c :
  well_formed d = true -> In k vital_keys ->
  eval (data_gt k c) d = Ok (Qlt_bool c (num_of d k)).
Proof.
  intros Hwf Hin. destruct (wf_vital d k Hwf Hin) as (v & q & Hv & Hq).
  unfold num_of. rewrite eval_gt, Hv, Hq. unfold py_gt, py_compare. by rewrite Hq.
Qed.

Lemma eval_le_wf d k c :
  well_formed d = true -> In k vital_keys ->
  eval (data_le k c) d = Ok (Qle_bool (num_of d k) c).
Proof.
  intros Hwf Hin. destruct (wf_vital d k Hwf Hin) as (v & q & Hv & Hq).
  unfold num_of. rewrite eval_le, Hv, Hq. unfold py_le, py_compare. by rewrite Hq.
Qed.

Lemma eval_ge_wf d k c :
  well_formed d = true -> In k vital_keys ->
  eval (data_ge k c) d = Ok (Qle_bool c (num_of d k)).
Proof.
  intros Hwf Hin. destruct (wf_vital d k Hwf Hin) as (v & q & Hv & Hq).
  unfold num_of. rewrite eval_ge, Hv, Hq. unfold py_ge, py_compare. by rewrite Hq.
Qed.

Ltac holds_atoms Hwf :=
  repeat first
    [ apply eval_por_ok; [auto 20 with reader | |]
    | apply eval_pand_ok; [auto 20 with reader | |] ];
  first [ apply (eval_flag_wf _ _ Hwf); in_keys
        | apply (eval_lt_wf _ _ _ Hwf); in_keys
        | apply (eval_gt_wf _ _ _ Hwf); in_keys
        | apply (eval_le_wf _ _ _ Hwf); in_keys
        | apply (eval_ge_wf _ _ _ Hwf); in_keys ].

Lemma eval_shock_index_wf d :
  well_formed d = true ->
  shock_index_overflows d = false ->
  exists si, eval shock_index_expr d = Ok si /\ as_number si = Some (shock_index_of d).
Proof.
  intros Hwf Hfit.
  destruct (wf_vital d "sbp" Hwf ltac:(in_keys)) as (sbp & qs & Hsbp & Hqs).
  destruct (wf_vital d "hr" Hwf ltac:(in_keys)) as (hr & qh & Hhr & Hqh).
  unfold shock_index_overflows in Hfit. rewrite Hsbp, Hhr in Hfit.
  rewrite eval_shock_index, Hsbp, Hhr. unfold shock_index_of, num_of.
  rewrite Hsbp, Hhr, Hqs, Hqh.
  unfold py_ne0 in *. rewrite Hqs in *.
  destruct (Qeq_bool qs 0) eqn:Hz; cbn [negb andb] in *.
  - exists (VInt 0). split; reflexivity.
  - destruct (truediv_numbers hr sbp qh qs Hqh Hqs Hz) as [E|E]; rewrite E in *.
    + exists (VFloat (qh / qs)). split; reflexivity.
    + discriminate Hfit.
Qed.

(** On a well-formed snapshot each test has the value of its formula,
    the circulation test when the division does not overflow. *)
Lemma eval_tier_holds d t :
  well_formed d = true -> shock_index_overflows d = false ->
  eval (tier_cond t) d = Ok (tier_holds t d).
Proof.
  intros Hwf Hfit. destruct t; simpl.
  - unfold airway_cond, airway_holds. holds_atoms Hwf.
  - unfold breathing_cond, breathing_holds. holds_atoms Hwf.
  - destruct (eval_shock_index_wf d Hwf Hfit) as (si & Hsi & Hq).
    unfold circulation_cond, circulation_holds.
    rewrite eval_bind, Hsi by apply reader_shock_index.
    repeat first [ apply eval_por_ok; [auto 20 with reader | |] ];
      first [ apply (eval_flag_wf _ _ Hwf); in_keys
            | apply (eval_lt_wf _ _ _ Hwf); in_keys
            | apply (eval_gt_wf _ _ _ Hwf); in_keys
            | idtac ].
    rewrite eval_lift. unfold py_gt, py_compare. by rewrite Hq.
  - destruct (wf_avpu d Hwf) as [s Hs].
    unfold consciousness_cond, consciousness_holds.
    rewrite eval_bind, eval_getitem, Hs by apply reader_getitem. reflexivity.
  - unfold time_sensitive_cond, time_sensitive_holds. holds_atoms Hwf.
  - unfold other_urgent_cond, other_urgent_holds. holds_atoms Hwf.
  - unfold yellow_vitals_cond, yellow_vitals_holds. holds_atoms Hwf.
  - unfold yellow_symptoms_cond, yellow_symptoms_holds. holds_atoms Hwf.
Qed.

Lemma fires_tier_holds d t :
  well_formed d = true -> shock_index_overflows d = false ->
  fires (tier_cond t) d = tier_holds t d.
Proof.
  intros Hwf Hfit. unfold fires. rewrite (eval_tier_holds d t Hwf Hfit).
  by destruct (tier_holds t d).
Qed.

(** The level returned on a well-formed snapshot. *)
Lemma classify_level d :
  well_formed d = true ->
  shock_index_overflows d = false ->
  exists rs, classify d = Ok (level_from_conditions d, rs) /\ rs <> [].
Proof.
  intros Hwf Hfit. wf_evals Hwf Hfit.
  unfold level_from_conditions, no_red, fires. simpl. rewrite_evals.
  unfold classify. exec_cascade. rewrite_evals.
  destruct b1; [simpl; eexists; split; [reflexivity|discriminate]|].
  destruct b2; [simpl; eexists; split; [reflexivity|discriminate]|].
  destruct b3; [simpl; eexists; split; [reflexivity|discriminate]|].
  destruct b4; [simpl; eexists; split; [reflexivity|discriminate]|].
  destruct b5; [simpl; eexists; split; [reflexivity|discriminate]|].
  destruct b6; [simpl; eexists; split; [reflexivity|discriminate]|].
  destruct b7, b8; simpl; eexists; (split; [reflexivity|discriminate]).
Qed.

Lemma no_red_true d :
  no_red d = true <-> forall t, In t red_tiers -> fires (tier_cond t) d = false.
Proof.
  unfold no_red. rewrite forallb_forall. split; intros H t Ht.
  - specialize (H t Ht). by destruct (fires (tier_cond t) d).
  - by rewrite (H t Ht).
Qed.

Lemma no_red_false d :
  no_red d = false <-> exists t, In t red_tiers /\ fires (tier_cond t) d = true.
Proof.
  split.
  - intros H. unfold no_red, red_tiers in H. simpl in H.
    destruct (fires airway_cond d) eqn:F1;
      [exists Airway; split; [simpl; tauto|exact F1]|].
    destruct (fires breathing_cond d) eqn:F2;
      [exists Breathing; split; [simpl; tauto|exact F2]|].
    destruct (fires circulation_cond d) eqn:F3;
      [exists Circulation; split; [simpl; tauto|exact F3]|].
    destruct (fires consciousness_cond d) eqn:F4;
      [exists Consciousness; split; [simpl; tauto|exact F4]|].
    destruct (fires time_sensitive_cond d) eqn:F5;
      [exists TimeSensitive; split; [simpl; tauto|exact F5]|].
    destruct (fires other_urgent_cond d) eqn:F6;
      [exists OtherUrgent; split; [simpl; tauto|exact F6]|].
    discriminate H.
  - intros (t & Ht & Hf). destruct (no_red d) eqn:Hn; [|reflexivity].
    rewrite no_red_true in Hn. rewrite (Hn t Ht) in Hf. discriminate.
Qed.

(** X1. On a well-formed snapshot on which the division of line 26 does not
    overflow, the level returned is RED exactly when some RED condition
    fires, YELLOW exactly when no RED condition fires and a yellow one does,
    and GREEN exactly when no condition fires at all. *)
Theorem level_characterisation d :
  well_formed d = true ->
  shock_index_overflows d = false ->
  exists l rs,
    classify d = Ok (l, rs) /\
    (l = "RED" <-> exists t, In t red_tiers /\ fires (tier_cond t) d = true) /\
    (l = "YELLOW" <->
       no_red d = true /\
       (fires yellow_vitals_cond d = true \/ fires yellow_symptoms_cond d = true)) /\
    (l = "GREEN" <-> forall t, fires (tier_cond t) d = false).
Proof.
  intros Hwf Hfit. destruct (classify_level d Hwf Hfit) as (rs & Hc & _).
  exists (level_from_conditions d), rs. split; [exact Hc|].
  assert (Hgreen : (forall t, fires (tier_cond t) d = false) <->
                   no_red d = true /\ fires yellow_vitals_cond d = false /\
                   fires yellow_symptoms_cond d = false).
  { rewrite no_red_true. split.
    - intros H. split; [intros t _; apply H|].
      split; [apply (H YellowVitals)|apply (H YellowSymptoms)].
    - intros (Hr & Hv & Hs) t.
      destruct t; try (apply Hr; simpl; tauto); assumption. }
  rewrite Hgreen, <- no_red_false. clear Hgreen.
  unfold level_from_conditions.
  destruct (no_red d), (fires yellow_vitals_cond d), (fires yellow_symptoms_cond d);
    cbn [negb orb]; repeat split; try discriminate; try reflexivity; auto.
  all: try (intros (? & ? & ?); discriminate).
  all: try (intros [? [?|?]]; discriminate).
  all: try (intros [? ?]; discriminate).
Qed.

Lemma level_characterisation_witness :
  exists l rs,
    classify yellow_both_snapshot = Ok (l, rs) /\
    (l = "RED" <->
       exists t, In t red_tiers /\ fires (tier_cond t) yellow_both_snapshot = true) /\
    (l = "YELLOW" <->
       no_red yellow_both_snapshot = true /\
       (fires yellow_vitals_cond yellow_both_snapshot = true \/
        fires yellow_symptoms_cond yellow_both_snapshot = true)) /\
    (l = "GREEN" <-> forall t, fires (tier_cond t) yellow_both_snapshot = false).
Proof. apply (level_characterisation yellow_both_snapshot); vm_compute; reflexivity. Defined.

(** ** Exceptions *)

Lemma es_weaken {A : Type} (K K' : string -> Prop) (c : prog A) :
  (forall k, K k -> K' k) -> err_spec K c -> err_spec K' c.
Proof.
  intros HK Hc d e He. destruct (Hc d e He) as [?|[?|(k & ? & ? & ?)]]; eauto 10.
Qed.













(** X12. On a well-formed snapshot the call raises OverflowError exactly
    when neither the airway nor the breathing condition fires and the
    division of line 26 overflows; the two tiers before line 26 return RED
    whatever the heart rate and the pressure are. *)
Theorem overflow_exactly (d : gmap string pyval) :
  well_formed d = true ->
  (classify d = Err OverflowError <->
   fires airway_cond d = false /\ fires breathing_cond d = false /\
   shock_index_overflows d = true) /\
  (fires airway_cond d = true \/ fires breathing_cond d = true ->
   exists r, classify d = Ok ("RED", [r])).
Proof.
  intros Hwf. split; [|apply (early_red d Hwf)].
  destruct (total_airway d Hwf) as [b1 E1]. destruct (total_breathing d Hwf) as [b2 E2].
  destruct (shock_index_overflows d) eqn:Hov.
  - assert (E3 : eval circulation_cond d = Err OverflowError).
    { apply shock_index_overflows_spec in Hov. unfold circulation_cond.
      by rewrite eval_bind, Hov by apply reader_shock_index. }
    unfold classify, fires. exec_cascade. rewrite E1.
    destruct b1; [simpl; split; [discriminate|intros [? _]; discriminate]|].
    rewrite E2.
    destruct b2; [simpl; split; [discriminate|intros (_ & ? & _); discriminate]|].
    rewrite E3. simpl. split; [tauto|reflexivity].
  - destruct (wf_returns d Hwf Hov) as (l & rs & ->).
    split; [discriminate|intros (_ & _ & ?); discriminate].
Qed.

Lemma overflow_exactly_witness :
  (classify huge_hr_snapshot = Err OverflowError <->
   fires airway_cond huge_hr_snapshot = false /\
   fires breathing_cond huge_hr_snapshot = false /\
   shock_index_overflows huge_hr_snapshot = true) /\
  (fires airway_cond huge_hr_snapshot = true \/
   fires breathing_cond huge_hr_snapshot = true ->
   exists r, classify huge_hr_snapshot = Ok ("RED", [r])).
Proof. apply (overflow_exactly huge_hr_snapshot). vm_compute. reflexivity. Defined.

(** ** The reasons appended *)

Lemma appended_app lg1 lg2 : appended (lg1 ++ lg2) = appended lg1 ++ appended lg2.
Proof.
  induction lg1 as [|[k|l| |r] lg1 IH]; simpl; [reflexivity|exact IH..|].
  by rewrite IH.
Qed.

Lemma appended_reads lg : forallb is_read lg = true -> appended lg = [].
Proof.
  induction lg as [|[k|l| |r] lg IH]; simpl; try discriminate; auto.
Qed.

Lemma appended_cond_log {A : Type} (c : prog A) d : reader c -> appended (cond_log c d) = [].
Proof. intros Hc. apply appended_reads, cond_log_reads, Hc. Qed.

Ltac known_reason :=
  first [ left; reflexivity
        | right; first [ by exists Airway | by exists Breathing | by exists Circulation
                       | by exists Consciousness | by exists TimeSensitive
                       | by exists OtherUrgent | by exists YellowVitals
                       | by exists YellowSymptoms ] ].

Ltac provenance :=
  unfold log_of, result_of; simpl;
  rewrite ?appended_app, ?appended_cond_log by auto with reader; simpl;
  split; [|split];
  [ intros l rs Hr; try discriminate Hr; injection Hr as <- <-; reflexivity
  | repeat (constructor; [known_reason|]); constructor
  | repeat (constructor; [discriminate|]); constructor ].

(** X3. Whatever the dict, the list returned is exactly the sequence of
    reasons appended during the run, in order; each of them is the reason of
    one of the eight tiers or the catch-all one, and the reason "Minor
    condition with stable vitals." of line 86 is never appended. *)
Theorem reasons_provenance (d : gmap string pyval) :
  (forall l rs, classify d = Ok (l, rs) -> rs = appended (log_of (call d))) /\
  Forall (fun r => r = default_reason \/ exists t, r = tier_reason t)
    (appended (log_of (call d))) /\
  Forall (fun r => r <> minor_reason) (appended (log_of (call d))).
Proof.
  unfold classify. exec_cascade.
  destruct (eval airway_cond d) as [[|]|e1]; [provenance| |provenance].
  destruct (eval breathing_cond d) as [[|]|e2]; [provenance| |provenance].
  destruct (eval circulation_cond d) as [[|]|e3]; [provenance| |provenance].
  destruct (eval consciousness_cond d) as [[|]|e4]; [provenance| |provenance].
  destruct (eval time_sensitive_cond d) as [[|]|e5]; [provenance| |provenance].
  destruct (eval other_urgent_cond d) as [[|]|e6]; [provenance| |provenance].
  destruct (eval yellow_vitals_cond d) as [[|]|e7];
    destruct (eval yellow_symptoms_cond d) as [[|]|e8]; provenance.
Qed.

(** ** Levels and ranges *)

Lemma Qlt_bool_false (x y : Q) : Qlt_bool x y = false <-> (y <= x)%Q.
Proof.
  unfold Qlt_bool. rewrite negb_false_iff. apply Qle_bool_iff.
Qed.

Lemma Qle_bool_false (x y : Q) : Qle_bool x y = false <-> (y < x)%Q.
Proof.
  split; intros H.
  - apply Qnot_le_lt. intros Hle. apply Qle_bool_iff in Hle. congruence.
  - destruct (Qle_bool x y) eqn:E; [|reflexivity].
    apply Qle_bool_iff in E. lra.
Qed.

Lemma red_holds_false d :
  (forall t, In t red_tiers -> tier_holds t d = false) <-> within_red_limits d.
Proof.
  unfold within_red_limits, red_flag_keys. rewrite !Forall_cons, Forall_nil.
  split.
  - intros H.
    pose proof (H Airway ltac:(simpl; tauto)) as H1.
    pose proof (H Breathing ltac:(simpl; tauto)) as H2.
    pose proof (H Circulation ltac:(simpl; tauto)) as H3.
    pose proof (H Consciousness ltac:(simpl; tauto)) as H4.
    pose proof (H TimeSensitive ltac:(simpl; tauto)) as H5.
    pose proof (H OtherUrgent ltac:(simpl; tauto)) as H6.
    clear H. simpl in *.
    unfold airway_holds, breathing_holds, circulation_holds, time_sensitive_holds,
      other_urgent_holds in *.
    rewrite !orb_false_iff, !Qlt_bool_false in *.
    intuition.
  - intros H t Ht. simpl in Ht.
    destruct Ht as [<-|[<-|[<-|[<-|[<-|[<-|[]]]]]]]; simpl;
      unfold airway_holds, breathing_holds, circulation_holds, time_sensitive_holds,
        other_urgent_holds;
      rewrite ?orb_false_iff, ?Qlt_bool_false; intuition.
Qed.

Lemma normal_within d : normal_ranges d -> within_red_limits d.
Proof.
  unfold normal_ranges, within_red_limits, red_flag_keys, yellow_flag_keys.
  simpl app. rewrite !Forall_cons, !Forall_nil.
  intros H. repeat split; try tauto; lra.
Qed.

Lemma yellow_holds_false d :
  within_red_limits d ->
  (yellow_vitals_holds d = false /\ yellow_symptoms_holds d = false <->
   normal_ranges d).
Proof.
  intros Hred. pose proof Hred as Hred'.
  unfold within_red_limits, red_flag_keys in Hred'.
  rewrite !Forall_cons, Forall_nil in Hred'.
  unfold normal_ranges, yellow_vitals_holds, yellow_symptoms_holds,
    red_flag_keys, yellow_flag_keys.
  simpl app. rewrite !Forall_cons, !Forall_nil.
  rewrite !orb_false_iff, !andb_false_iff, !Qle_bool_false.
  split.
  - intros H. repeat split; try tauto; lra.
  - intros H. repeat split; try tauto; lra.
Qed.

Lemma all_holds_false d :
  (forall t, tier_holds t d = false) <-> normal_ranges d.
Proof.
  split.
  - intros H.
    assert (Hred : within_red_limits d) by (apply red_holds_false; auto).
    apply (yellow_holds_false d Hred).
    split; [apply (H YellowVitals)|apply (H YellowSymptoms)].
  - intros H t.
    pose proof (normal_within d H) as Hred.
    destruct (proj2 (yellow_holds_false d Hred) H) as [Hv Hs].
    destruct t; try (apply (proj2 (red_holds_false d) Hred); simpl; tauto);
      assumption.
Qed.

(** X4. On a well-formed snapshot on which the division of line 26 does not
    overflow, the result is GREEN exactly when every
    vital lies in its normal range (10 <= RR < 20, SpO2 >= 90, 50 <= HR < 100,
    90 <= SBP < 180, 60 <= DBP < 100, 35 <= temp < 38, pain < 4, shock index
    at most 1), consciousness is not V, P or U and none of the 25 symptom
    checkboxes is ticked; it is RED exactly when one of the RED limits
    (10 <= RR <= 22, SpO2 >= 90, 50 <= HR <= 120, 90 <= SBP <= 220,
    60 <= DBP <= 110, 35 <= temp <= 40, pain <= 7, shock index at most 1,
    consciousness, the 18 red flags) is violated. *)
Theorem verdict_by_ranges d :
  well_formed d = true ->
  shock_index_overflows d = false ->
  exists l rs,
    classify d = Ok (l, rs) /\
    (l = "GREEN" <-> normal_ranges d) /\
    (l <> "RED" <-> within_red_limits d).
Proof.
  intros Hwf Hfit. destruct (classify_level d Hwf Hfit) as (rs & Hc & _).
  exists (level_from_conditions d), rs. split; [exact Hc|].
  rewrite <- all_holds_false, <- red_holds_false.
  assert (Hred : no_red d = true <->
                 forall t, In t red_tiers -> tier_holds t d = false).
  { rewrite no_red_true. split; intros H t Ht.
    - rewrite <- (fires_tier_holds d t Hwf Hfit). auto.
    - rewrite (fires_tier_holds d t Hwf Hfit). auto. }
  rewrite <- Hred. clear Hred.
  assert (Hall : (forall t, tier_holds t d = false) <->
                 no_red d = true /\ fires yellow_vitals_cond d = false /\
                 fires yellow_symptoms_cond d = false).
  { pose proof (fires_tier_holds d YellowVitals Hwf Hfit) as E7.
    pose proof (fires_tier_holds d YellowSymptoms Hwf Hfit) as E8. simpl in E7, E8.
    rewrite no_red_true, E7, E8. split.
    - intros H. split; [intros t _; rewrite (fires_tier_holds d t Hwf Hfit); apply H|].
      split; [apply (H YellowVitals)|apply (H YellowSymptoms)].
    - intros (Hr & Hv & Hs) t.
      destruct t; try (rewrite <- (fires_tier_holds _ _ Hwf Hfit); apply Hr; simpl; tauto);
        assumption. }
  rewrite Hall. clear Hall. unfold level_from_conditions.
  destruct (no_red d), (fires yellow_vitals_cond d), (fires yellow_symptoms_cond d);
    cbn [negb orb]; repeat split; try discriminate; try reflexivity; auto.
  all: try (intros (? & ? & ?); discriminate).
  all: try (intros H; exfalso; apply H; reflexivity).
  all: try (intros ?; discriminate).
Qed.

Lemma verdict_by_ranges_witness :
  exists l rs,
    classify normal_snapshot = Ok (l, rs) /\
    (l = "GREEN" <-> normal_ranges normal_snapshot) /\
    (l <> "RED" <-> within_red_limits normal_snapshot).
Proof. apply (verdict_by_ranges normal_snapshot); vm_compute; reflexivity. Defined.

(** ** Ticking a checkbox *)

Lemma flag_key_not_vital k : In k flag_keys -> ~ In k vital_keys /\ k <> "avpu".
Proof.
  intros Hf. split.
  - intros Hv. simpl in Hv.
    repeat (destruct Hv as [<-|Hv]; [simpl in Hf; intuition discriminate|]).
    exact Hv.
  - intros ->. simpl in Hf. intuition discriminate.
Qed.

Lemma wf_tick d k :
  well_formed d = true -> In k flag_keys -> well_formed (<[k := VBool true]> d) = true.
Proof.
  intros Hwf Hk. destruct (flag_key_not_vital k Hk) as [Hnv Hna].
  unfold well_formed in *. rewrite !andb_true_iff in *.
  destruct Hwf as [[Hf Hv] Ha]. rewrite !forallb_forall in *.
  split; [split|].
  - intros k' Hk'. unfold is_flag. destruct (decide (k = k')) as [<-|Hne].
    + by rewrite lookup_insert_eq.
    + rewrite lookup_insert_ne by exact Hne. apply (Hf k' Hk').
  - intros k' Hk'. unfold is_vital. rewrite lookup_insert_ne; [apply (Hv k' Hk')|].
    intros <-. contradiction.
  - unfold is_avpu in *. by rewrite lookup_insert_ne.
Qed.

Lemma flag_of_tick d k k' :
  flag_of d k' = true -> flag_of (<[k := VBool true]> d) k' = true.
Proof.
  unfold flag_of. destruct (decide (k = k')) as [<-|Hne].
  - by rewrite lookup_insert_eq.
  - by rewrite lookup_insert_ne.
Qed.

Lemma num_of_tick d k k' v : k <> k' -> num_of (<[k := v]> d) k' = num_of d k'.
Proof. intros Hne. unfold num_of. by rewrite lookup_insert_ne. Qed.

Lemma orb_impl (a a' b b' : bool) :
  (a = true -> a' = true) -> (b = true -> b' = true) ->
  a || b = true -> a' || b' = true.
Proof.
  destruct a, b, a', b'; simpl; intros Ha Hb H; auto; try discriminate;
    first [discriminate (Ha eq_refl) | discriminate (Hb eq_refl)].
Qed.

Lemma tier_holds_tick d k t :
  In k flag_keys -> tier_holds t d = true -> tier_holds t (<[k := VBool true]> d) = true.
Proof.
  intros Hk. destruct (flag_key_not_vital k Hk) as [Hnv Hna].
  assert (Hnum : forall k', In k' vital_keys ->
            num_of (<[k := VBool true]> d) k' = num_of d k').
  { intros k' Hk'. apply num_of_tick. intros <-. contradiction. }
  pose proof (Hnum "rr" ltac:(in_keys)) as Nrr.
  pose proof (Hnum "spo2" ltac:(in_keys)) as Nspo2.
  pose proof (Hnum "hr" ltac:(in_keys)) as Nhr.
  pose proof (Hnum "sbp" ltac:(in_keys)) as Nsbp.
  pose proof (Hnum "dbp" ltac:(in_keys)) as Ndbp.
  pose proof (Hnum "temp" ltac:(in_keys)) as Ntemp.
  pose proof (Hnum "pain_score" ltac:(in_keys)) as Npain.
  destruct t; simpl;
    unfold airway_holds, breathing_holds, circulation_holds, consciousness_holds,
      time_sensitive_holds, other_urgent_holds, yellow_vitals_holds,
      yellow_symptoms_holds, shock_index_of;
    rewrite ?Nrr, ?Nspo2, ?Nhr, ?Nsbp, ?Ndbp, ?Ntemp, ?Npain;
    try (rewrite lookup_insert_ne by exact Hna; exact (fun H => H));
    repeat (apply orb_impl);
    first [ apply flag_of_tick | exact (fun H => H) ].
Qed.

Lemma rank_le_2 l : (rank l <= 2)%nat.
Proof. unfold rank. destruct (String.eqb l "RED"), (String.eqb l "YELLOW"); lia. Qed.

Lemma overflows_tick d k v :
  In k flag_keys -> shock_index_overflows (<[k := v]> d) = shock_index_overflows d.
Proof.
  intros Hk. destruct (flag_key_not_vital k Hk) as [Hnv _].
  unfold shock_index_overflows.
  rewrite !lookup_insert_ne; [reflexivity|..]; intros ->; apply Hnv; in_keys.
Qed.

(** X5. Ticking a checkbox never lowers the level: on a well-formed snapshot
    on which the division of line 26 does not overflow, setting any boolean
    flag to True gives a level at least as severe. *)
Theorem tick_never_lowers (d : gmap string pyval) (k : string) :
  well_formed d = true ->
  shock_index_overflows d = false ->
  In k flag_keys ->
  exists l rs l' rs',
    classify d = Ok (l, rs) /\
    classify (<[k := VBool true]> d) = Ok (l', rs') /\
    level_le l l'.
Proof.
  intros Hwf Hfit Hk. pose proof (wf_tick d k Hwf Hk) as Hwf'.
  assert (Hfit' : shock_index_overflows (<[k := VBool true]> d) = false)
    by (by rewrite overflows_tick).
  destruct (classify_level d Hwf Hfit) as (rs & Hc & _).
  destruct (classify_level _ Hwf' Hfit') as (rs' & Hc' & _).
  exists (level_from_conditions d), rs, (level_from_conditions (<[k := VBool true]> d)), rs'.
  split; [exact Hc|]. split; [exact Hc'|].
  assert (Hmono : forall t, fires (tier_cond t) d = true ->
                    fires (tier_cond t) (<[k := VBool true]> d) = true).
  { intros t. rewrite (fires_tier_holds d t Hwf Hfit), (fires_tier_holds _ t Hwf' Hfit').
    by apply tier_holds_tick. }
  unfold level_le, level_from_conditions.
  destruct (no_red (<[k := VBool true]> d)) eqn:Hn'; cbn [negb];
    [|apply rank_le_2].
  assert (Hn : no_red d = true).
  { destruct (no_red d) eqn:Hn; [reflexivity|].
    apply no_red_false in Hn. destruct Hn as (t & Ht & Hf).
    rewrite no_red_true in Hn'. specialize (Hmono t Hf).
    rewrite (Hn' t Ht) in Hmono. discriminate. }
  rewrite Hn. cbn [negb].
  pose proof (Hmono YellowVitals) as Hv. pose proof (Hmono YellowSymptoms) as Hs.
  simpl in Hv, Hs.
  destruct (fires yellow_vitals_cond d);
    [rewrite (Hv eq_refl); cbn [orb]; vm_compute; lia|].
  destruct (fires yellow_symptoms_cond d);
    [rewrite (Hs eq_refl), !orb_true_r; cbn [orb]; vm_compute; lia|].
  cbn [orb]. change (rank "GREEN") with 0%nat. lia.
Qed.

Lemma tick_never_lowers_witness :
  exists l rs l' rs',
    classify normal_snapshot = Ok (l, rs) /\
    classify (<["fever_no_red_flags" := VBool true]> normal_snapshot) = Ok (l', rs') /\
    level_le l l'.
Proof.
  apply (tick_never_lowers normal_snapshot "fever_no_red_flags").
  - vm_compute. reflexivity.
  - vm_compute. reflexivity.
  - in_keys.
Defined.

(** ** The dict built from the form *)

Lemma dict_literal_snoc l k v :
  dict_literal (l ++ [(k, v)]) = <[k := v]> (dict_literal l).
Proof. unfold dict_literal. by rewrite fold_left_app. Qed.

(** A dict display with distinct keys holds exactly its entries. *)
Lemma dict_literal_lookup l :
  NoDup (map fst l) ->
  forall k v, dict_literal l !! k = Some v <-> In (k, v) l.
Proof.
  induction l as [|[k' v'] l IH] using rev_ind; intros Hnd k v.
  - unfold dict_literal. simpl. rewrite lookup_empty. split; [discriminate|tauto].
  - rewrite map_app in Hnd. simpl in Hnd.
    apply NoDup_app in Hnd. destruct Hnd as (Hnd & Hfresh & _).
    rewrite dict_literal_snoc, in_app_iff. simpl.
    destruct (decide (k' = k)) as [->|Hne].
    + rewrite lookup_insert_eq. split.
      * intros [= ->]. right. left. reflexivity.
      * intros [Hin|[[= ->]|[]]]; [|reflexivity].
        exfalso. apply (Hfresh k); [|by left].
        apply list_elem_of_In, in_map_iff. by exists (k, v).
    + rewrite lookup_insert_ne by exact Hne. rewrite (IH Hnd). split.
      * tauto.
      * intros [Hin|[[= -> ->]|[]]]; [exact Hin|contradiction].
Qed.

Lemma form_keys_NoDup : NoDup form_keys.
Proof. apply (bool_decide_unpack _). vm_compute. reflexivity. Qed.

Lemma patient_data_keys f c : map fst (patient_data_entries f c) = form_keys.
Proof. reflexivity. Qed.

Lemma patient_data_lookup f c k v :
  dict_literal (patient_data_entries f c) !! k = Some v <->
  In (k, v) (patient_data_entries f c).
Proof.
  apply dict_literal_lookup. rewrite patient_data_keys. apply form_keys_NoDup.
Qed.

Ltac in_entries := simpl; repeat first [ left; reflexivity | right ].

Lemma flag_of_entries f c k b :
  In (k, VBool b) (patient_data_entries f c) ->
  flag_of (dict_literal (patient_data_entries f c)) k = b.
Proof.
  intros Hin. apply patient_data_lookup in Hin. unfold flag_of. by rewrite Hin.
Qed.

Lemma num_of_entries_int f c k z :
  In (k, VInt z) (patient_data_entries f c) ->
  num_of (dict_literal (patient_data_entries f c)) k = inject_Z z.
Proof.
  intros Hin. apply patient_data_lookup in Hin. unfold num_of. by rewrite Hin.
Qed.

Lemma radio_letter f :
  radio_selected f ->
  exists c, py_index0 (Form.avpu f) = Some c /\
            (c = "A" \/ c = "V" \/ c = "P" \/ c = "U") /\
            (c = "A" <-> Form.avpu f = "A - Alert").
Proof.
  unfold radio_selected, avpu_options. simpl.
  intros [<-|[<-|[<-|[<-|[]]]]]; simpl; eexists; (split; [reflexivity|]);
    (split; [tauto|]); split; (reflexivity || discriminate).
Qed.

Lemma wf_patient_data f c :
  c = "A" \/ c = "V" \/ c = "P" \/ c = "U" ->
  well_formed (dict_literal (patient_data_entries f c)) = true.
Proof. intros [->|[->|[->| ->]]]; vm_compute; reflexivity. Qed.

(** The values of the widgets are within their bounds, and far below the
    least integer that overflows a float. *)
Lemma form_in_ranges f : in_widget_ranges f.
Proof.
  pose proof (Form.bounds f) as Hb. unfold widget_bounds in Hb.
  rewrite !andb_true_iff, !Qle_bool_iff, !Z.leb_le in Hb.
  unfold in_widget_ranges. tauto.
Qed.

Lemma patient_data_fits f c :
  shock_index_overflows (dict_literal (patient_data_entries f c)) = false.
Proof.
  destruct (form_in_ranges f) as (_ & Hhr & Hsbp & _).
  assert (Hbig : (250 < float_overflow)%Z) by reflexivity.
  apply float_range_fits; unfold in_float_range.
  - rewrite (proj2 (patient_data_lookup f c "hr" (VInt (Form.hr f))) ltac:(in_entries)).
    apply Z.ltb_lt. revert Hbig. generalize float_overflow. lia.
  - rewrite (proj2 (patient_data_lookup f c "sbp" (VInt (Form.sbp f))) ltac:(in_entries)).
    apply Z.ltb_lt. revert Hbig. generalize float_overflow. lia.
Qed.

Lemma tier_keys_in_form t k : In k (tier_keys t) -> In k form_keys.
Proof.
  destruct t; simpl; intros Hin;
    repeat (destruct Hin as [<-|Hin]; [tauto 0 || in_keys|]); destruct Hin.
Qed.
(** X6. For every state of the form in which the radio holds one of its
    options, [patient_data] is built without error, holds exactly the 36
    entries of lines 168-205 (no key is written twice), is a well-formed
    snapshot, and contains every key the classifier may read: the contract
    stated in the comment of line 166. *)
Theorem patient_data_contract (f : Form.t) :
  radio_selected f ->
  exists c d,
    py_index0 (Form.avpu f) = Some c /\
    patient_data f = Some d /\
    NoDup (map fst (patient_data_entries f c)) /\
    (forall k v, d !! k = Some v <-> In (k, v) (patient_data_entries f c)) /\
    well_formed d = true /\
    (forall t k, In k (tier_keys t) -> is_Some (d !! k)).
Proof.
  intros Hr. destruct (radio_letter f Hr) as (c & Hc & Hletter & _).
  exists c, (dict_literal (patient_data_entries f c)).
  split; [exact Hc|]. split; [unfold patient_data; by rewrite Hc|].
  split; [rewrite patient_data_keys; apply form_keys_NoDup|].
  split; [intros k v; apply patient_data_lookup|].
  split; [by apply wf_patient_data|].
  intros t k Hk. apply tier_keys_in_form in Hk.
  rewrite <- (patient_data_keys f c) in Hk. apply in_map_iff in Hk.
  destruct Hk as ([k' v] & <- & Hin). exists v. by apply patient_data_lookup.
Qed.

Lemma patient_data_contract_witness :
  exists c d,
    py_index0 (Form.avpu default_form) = Some c /\
    patient_data default_form = Some d /\
    NoDup (map fst (patient_data_entries default_form c)) /\
    (forall k v, d !! k = Some v <-> In (k, v) (patient_data_entries default_form c)) /\
    well_formed d = true /\
    (forall t k, In k (tier_keys t) -> is_Some (d !! k)).
Proof.
  apply (patient_data_contract default_form).
  unfold radio_selected. simpl. tauto.
Defined.

Lemma is_level_from_conditions d : is_level (level_from_conditions d).
Proof.
  unfold level_from_conditions, is_level.
  destruct (negb (no_red d)); [tauto|].
  destruct (fires yellow_vitals_cond d || fires yellow_symptoms_cond d); tauto.
Qed.

(** X7. Pressing the button never raises, whatever the form holds: the
    page shows the verdict, whose level is RED, YELLOW or GREEN with at
    least one reason, under the matching banner (error for RED, warning for
    YELLOW); the [else] branch of line 216 is taken for GREEN only. *)
Theorem on_click_shows (f : Form.t) :
  radio_selected f ->
  exists l rs,
    on_click f = Shown (show_result (l, rs)) /\
    rs <> [] /\
    ((l = "RED" /\
      banner l = st_error "**Triage Level: RED - IMMEDIATE ATTENTION REQUIRED**") \/
     (l = "YELLOW" /\
      banner l = st_warning "**Triage Level: YELLOW - URGENT CARE REQUIRED**") \/
     (l = "GREEN" /\
      banner l = st_success "**Triage Level: GREEN - NON-URGENT CARE**")).
Proof.
  intros Hr. destruct (radio_letter f Hr) as (c & Hc & Hletter & _).
  pose proof (wf_patient_data f c Hletter) as Hwf.
  pose proof (patient_data_fits f c) as Hfit.
  destruct (classify_level _ Hwf Hfit) as (rs & Hcl & Hne).
  exists (level_from_conditions (dict_literal (patient_data_entries f c))), rs.
  split; [|split; [exact Hne|]].
  - unfold on_click, patient_data. by rewrite Hc, Hcl.
  - destruct (is_level_from_conditions (dict_literal (patient_data_entries f c)))
      as [->|[->| ->]]; [right; right|right; left|left]; split; reflexivity.
Qed.

Lemma on_click_shows_witness :
  exists l rs,
    on_click default_form = Shown (show_result (l, rs)) /\
    rs <> [] /\
    ((l = "RED" /\
      banner l = st_error "**Triage Level: RED - IMMEDIATE ATTENTION REQUIRED**") \/
     (l = "YELLOW" /\
      banner l = st_warning "**Triage Level: YELLOW - URGENT CARE REQUIRED**") \/
     (l = "GREEN" /\
      banner l = st_success "**Triage Level: GREEN - NON-URGENT CARE**")).
Proof.
  apply (on_click_shows default_form). unfold radio_selected. simpl. tauto.
Defined.

Ltac settle_orb := repeat (cbn [orb]; rewrite ?orb_true_r); reflexivity.

Ltac ticked_flag f c H :=
  cbn [tier_holds];
  unfold airway_holds, breathing_holds, circulation_holds, time_sensitive_holds,
    other_urgent_holds, yellow_symptoms_holds;
  repeat (erewrite (flag_of_entries f c) by in_entries);
  rewrite H; settle_orb.

(** The page shown for a RED verdict with reason [r]. *)
Lemma show_red r :
  show_result ("RED", [r]) =
    [ st_markdown "---"; st_subheader result_heading;
      st_error "**Triage Level: RED - IMMEDIATE ATTENTION REQUIRED**";
      st_markdown "#### Reasons for Classification:";
      st_write ("- " +:+ r) ].
Proof. reflexivity. Qed.

Lemma red_tick_fires f c :
  any_ticked (red_ticks f) = true ->
  exists t, In t red_tiers /\
            tier_holds t (dict_literal (patient_data_entries f c)) = true.
Proof.
  unfold any_ticked, red_ticks. cbn [existsb]. intros H.
  repeat (apply orb_true_iff in H; destruct H as [H|H]); try discriminate H.
  all: first
    [ exists Airway; split; [simpl; tauto|]; ticked_flag f c H
    | exists Breathing; split; [simpl; tauto|]; ticked_flag f c H
    | exists Circulation; split; [simpl; tauto|]; ticked_flag f c H
    | exists TimeSensitive; split; [simpl; tauto|]; ticked_flag f c H
    | exists OtherUrgent; split; [simpl; tauto|]; ticked_flag f c H ].
Qed.

(** X8. Any tick in the red-flag column of the form (lines 119-142), and any
    consciousness option other than "A - Alert", gives the RED error banner
    followed by exactly one reason. *)
Theorem red_tick_shows_red (f : Form.t) :
  radio_selected f ->
  any_ticked (red_ticks f) = true \/ Form.avpu f <> "A - Alert" ->
  exists r,
    on_click f = Shown
      [ st_markdown "---"; st_subheader result_heading;
        st_error "**Triage Level: RED - IMMEDIATE ATTENTION REQUIRED**";
        st_markdown "#### Reasons for Classification:";
        st_write ("- " +:+ r) ].
Proof.
  intros Hr Hred. destruct (radio_letter f Hr) as (c & Hc & Hletter & HA).
  pose proof (wf_patient_data f c Hletter) as Hwf.
  pose proof (patient_data_fits f c) as Hfit.
  assert (Hfire : exists t, In t red_tiers /\
            fires (tier_cond t) (dict_literal (patient_data_entries f c)) = true).
  { destruct Hred as [Hticks|Havpu].
    - destruct (red_tick_fires f c Hticks) as (t & Ht & Hh).
      exists t. split; [exact Ht|]. by rewrite (fires_tier_holds _ t Hwf Hfit).
    - exists Consciousness. split; [simpl; tauto|].
      rewrite (fires_tier_holds _ _ Hwf Hfit). cbn [tier_holds].
      unfold consciousness_holds.
      rewrite (proj2 (patient_data_lookup f c "avpu" (VStr c)) ltac:(in_entries)).
      destruct Hletter as [->|[->|[->| ->]]]; try reflexivity.
      exfalso. apply Havpu. by apply HA. }
  destruct Hfire as (t & Ht & Hf).
  destruct (fires_red _ t Hwf Hfit Ht Hf) as [r Hcl].
  exists r. unfold on_click, patient_data. rewrite Hc, Hcl. apply f_equal, show_red.
Qed.

Lemma red_tick_shows_red_witness :
  exists r,
    on_click ticked_bleeding_form = Shown
      [ st_markdown "---"; st_subheader result_heading;
        st_error "**Triage Level: RED - IMMEDIATE ATTENTION REQUIRED**";
        st_markdown "#### Reasons for Classification:";
        st_write ("- " +:+ r) ].
Proof.
  apply (red_tick_shows_red ticked_bleeding_form).
  - unfold radio_selected. simpl. tauto.
  - left. reflexivity.
Defined.
Lemma yellow_tick_fires f c :
  any_ticked (yellow_ticks f) = true ->
  tier_holds YellowSymptoms (dict_literal (patient_data_entries f c)) = true.
Proof.
  unfold any_ticked, yellow_ticks. cbn [existsb]. intros H.
  repeat (apply orb_true_iff in H; destruct H as [H|H]); try discriminate H.
  all: ticked_flag f c H.
Qed.

Lemma Qle_bool_inject (a b : Z) : Qle_bool (inject_Z a) (inject_Z b) = (a <=? b)%Z.
Proof.
  apply eq_true_iff_eq. rewrite Qle_bool_iff, <- Zle_Qle. symmetry. apply Z.leb_le.
Qed.

Lemma Qlt_bool_inject (a b : Z) : Qlt_bool (inject_Z a) (inject_Z b) = (a <? b)%Z.
Proof.
  unfold Qlt_bool. rewrite Qle_bool_inject, Z.ltb_antisym. reflexivity.
Qed.

(** X9. A tick among the yellow indicators of the third column (lines
    150-156), or a pain score of 4 or more, never leaves the verdict GREEN:
    the level shown is YELLOW or RED. *)
Theorem yellow_tick_not_green (f : Form.t) :
  radio_selected f ->
  any_ticked (yellow_ticks f) = true \/ (4 <= Form.pain_score f)%Z ->
  exists l rs,
    on_click f = Shown (show_result (l, rs)) /\ (l = "YELLOW" \/ l = "RED").
Proof.
  intros Hr Hy. destruct (radio_letter f Hr) as (c & Hc & Hletter & _).
  pose proof (wf_patient_data f c Hletter) as Hwf.
  pose proof (patient_data_fits f c) as Hfit.
  destruct (classify_level _ Hwf Hfit) as (rs & Hcl & _).
  exists (level_from_conditions (dict_literal (patient_data_entries f c))), rs.
  split; [unfold on_click, patient_data; by rewrite Hc, Hcl|].
  clear Hcl. set (d := dict_literal (patient_data_entries f c)) in *.
  assert (Hfire : no_red d = false \/ fires yellow_symptoms_cond d = true).
  { destruct Hy as [Hticks|Hpain].
    - right. change yellow_symptoms_cond with (tier_cond YellowSymptoms).
      rewrite (fires_tier_holds d _ Hwf Hfit). by apply yellow_tick_fires.
    - assert (Hp : num_of d "pain_score" = inject_Z (Form.pain_score f))
        by (apply num_of_entries_int; in_entries).
      destruct (Z.leb_spec (Form.pain_score f) 7) as [H7|H7].
      + right. change yellow_symptoms_cond with (tier_cond YellowSymptoms).
        rewrite (fires_tier_holds d _ Hwf Hfit). cbn [tier_holds].
        unfold yellow_symptoms_holds. rewrite Hp.
        change 4%Q with (inject_Z 4). change 7%Q with (inject_Z 7).
        rewrite !Qle_bool_inject.
        rewrite (proj2 (Z.leb_le _ _) Hpain), (proj2 (Z.leb_le _ _) H7). reflexivity.
      + left. apply no_red_false. exists TimeSensitive. split; [simpl; tauto|].
        rewrite (fires_tier_holds d _ Hwf Hfit). cbn [tier_holds].
        unfold time_sensitive_holds. rewrite Hp.
        change 7%Q with (inject_Z 7). rewrite Qlt_bool_inject.
        rewrite (proj2 (Z.ltb_lt _ _) H7). settle_orb. }
  unfold level_from_conditions.
  destruct Hfire as [-> | Hs]; [by right|].
  destruct (no_red d); cbn [negb]; [|by right].
  rewrite Hs, orb_true_r. by left.
Qed.

Lemma yellow_tick_not_green_witness :
  exists l rs,
    on_click pain_five_form = Shown (show_result (l, rs)) /\
    (l = "YELLOW" \/ l = "RED").
Proof.
  apply (yellow_tick_not_green pain_five_form).
  - unfold radio_selected. simpl. tauto.
  - right. simpl. lia.
Defined.

Lemma Qlt_bool_one_div (h s : Z) :
  (0 < s)%Z -> Qlt_bool 1 (inject_Z h / inject_Z s) = (s <? h)%Z.
Proof.
  intros Hs. apply eq_true_iff_eq. rewrite Z.ltb_lt, Zlt_Qlt.
  assert (Hs' : (0 < inject_Z s)%Q) by (change 0%Q with (inject_Z 0); by rewrite <- Zlt_Qlt).
  assert (E : (inject_Z h / inject_Z s * inject_Z s == inject_Z h)%Q) by (field; lra).
  unfold Qlt_bool. rewrite negb_true_iff. split; intros H.
  - apply Qle_bool_false in H. apply (Qmult_lt_r _ _ _ Hs') in H.
    rewrite E in H. lra.
  - apply Qle_bool_false. apply (Qmult_lt_r _ _ _ Hs'). rewrite E. lra.
Qed.

(** X10. For the values the number inputs can hold, the shock-index clause
    of line 29 is the comparison of the two integers: it is true exactly
    when the systolic pressure is positive and below the heart rate. *)
Theorem shock_index_is_comparison (f : Form.t) :
  radio_selected f ->
  in_widget_ranges f ->
  exists d,
    patient_data f = Some d /\
    eval shock_index_clause d =
      Ok ((0 <? Form.sbp f)%Z && (Form.sbp f <? Form.hr f)%Z).
Proof.
  intros Hr Hrange. destruct (radio_letter f Hr) as (c & Hc & Hletter & _).
  pose proof (wf_patient_data f c Hletter) as Hwf.
  exists (dict_literal (patient_data_entries f c)).
  split; [unfold patient_data; by rewrite Hc|].
  pose proof (patient_data_fits f c) as Hfit.
  set (d := dict_literal (patient_data_entries f c)) in *.
  destruct (eval_shock_index_wf d Hwf Hfit) as (si & Hsi & Hq).
  unfold shock_index_clause. rewrite eval_bind, Hsi, eval_lift by auto with reader.
  unfold py_gt, py_compare. rewrite Hq. f_equal.
  assert (Hh : num_of d "hr" = inject_Z (Form.hr f))
    by (apply num_of_entries_int; in_entries).
  assert (Hs : num_of d "sbp" = inject_Z (Form.sbp f))
    by (apply num_of_entries_int; in_entries).
  unfold shock_index_of. rewrite Hh, Hs.
  destruct Hrange as (_ & _ & [Hs0 _] & _).
  destruct (Z.ltb_spec 0 (Form.sbp f)) as [Hpos|Hzero]; cbn [andb].
  - assert (Hne : Qeq_bool (inject_Z (Form.sbp f)) 0 = false).
    { destruct (Qeq_bool (inject_Z (Form.sbp f)) 0) eqn:E; [|reflexivity].
      apply Qeq_bool_iff in E. change 0%Q with (inject_Z 0) in E.
      rewrite inject_Z_injective in E. lia. }
    rewrite Hne. by apply Qlt_bool_one_div.
  - assert (Form.sbp f = 0%Z) as -> by lia. reflexivity.
Qed.

Lemma shock_index_is_comparison_witness :
  exists d,
    patient_data default_form = Some d /\
    eval shock_index_clause d =
      Ok ((0 <? Form.sbp default_form)%Z &&
          (Form.sbp default_form <? Form.hr default_form)%Z).
Proof.
  apply (shock_index_is_comparison default_form).
  - unfold radio_selected. simpl. tauto.
  - unfold in_widget_ranges. simpl. repeat split; (lia || lra).
Defined.
(** X11. The three green-indicator checkboxes (lines 159-161) have no effect
    on what the button shows: changing them changes nothing on the page. *)
Theorem green_ticks_change_nothing (f : Form.t) (cut cold refill : bool) :
  on_click (with_green_indicators f cut cold refill) = on_click f.
Proof.
  unfold on_click, patient_data.
  change (Form.avpu (with_green_indicators f cut cold refill)) with (Form.avpu f).
  destruct (py_index0 (Form.avpu f)) as [c|]; [|reflexivity].
  destruct (call_congruence
              (dict_literal (patient_data_entries (with_green_indicators f cut cold refill) c))
              (dict_literal (patient_data_entries f c))) as [_ Hres];
    [|by rewrite Hres].
  intros t. apply (reads_only_frame _ _ _ _ (reads_tier_cond t)).
  intros k Hk.
  destruct t; simpl in Hk;
    repeat (destruct Hk as [<-|Hk]; [vm_compute; reflexivity|]); destruct Hk.
Qed.
